(** * Workflow graph synchronisation

    A shallow embedding of the graph store (db/db_setup.sql), of the service
    layer that talks to it (lib/flowService.js) and of the canvas page that
    reconciles pushed change events and saves the graph (pages/Flow).

    Layout: the store and its procedures, the client and the services, the
    canvas state and its handlers, then the properties. *)

From Stdlib Require Import List String ZArith Bool Arith Lia.
Import ListNotations.
Local Open Scope string_scope.
Local Open Scope list_scope.

(** ** JavaScript truthiness on strings *)

(** A string is falsy exactly when it is empty. *)
Definition truthy (s : string) : bool := negb (s =? "").

(** [v || d] where [v] is a string that may be null or undefined. *)
Definition js_or (v : option string) (d : string) : string :=
  match v with
  | Some s => if truthy s then s else d
  | None => d
  end.

(** [v || null]. *)
Definition or_null (v : option string) : option string :=
  match v with
  | Some s => if truthy s then Some s else None
  | None => None
  end.

(** ** The store: tables of db_setup.sql *)

(** Timestamps are ticks of the store clock; UUIDs and TEXT keys are strings;
    the FLOAT coordinates are carried around untouched, so they are kept as
    integers here. *)

Record project_row := {
  p_id : string;
  p_name : string;
  p_description : option string;
  p_created_at : nat;
  p_updated_at : nat
}.

Record tool_row := {
  t_id : string;
  t_name : string;
  t_endpoint : string;
  t_method : string;
  t_headers : option string;
  t_body : option string
}.

Record node_row := {
  n_id : string;
  n_project_id : string;
  n_title : string;
  n_prompt : option string;
  n_node_type : string;
  n_tool_id : option string;
  n_position_x : Z;
  n_position_y : Z;
  n_created_at : nat;
  n_updated_at : nat
}.

Record edge_row := {
  e_id : string;
  e_project_id : string;
  e_source_id : string;
  e_target_id : string;
  e_label : option string;
  e_prompt : option string;
  e_created_at : nat;
  e_updated_at : nat
}.

Record database := {
  projects : list project_row;
  tools : list tool_row;
  nodes : list node_row;
  edges : list edge_row
}.

Definition with_projects (db : database) (l : list project_row) : database :=
  {| projects := l; tools := tools db; nodes := nodes db; edges := edges db |}.

Definition with_nodes (db : database) (l : list node_row) : database :=
  {| projects := projects db; tools := tools db; nodes := l; edges := edges db |}.

Definition with_edges (db : database) (l : list edge_row) : database :=
  {| projects := projects db; tools := tools db; nodes := nodes db; edges := l |}.

(** A statement either raises (left, with the message) or yields a value. *)
Definition sql_result (A : Type) : Type := (string + A)%type.

Definition raise {A : Type} (msg : string) : sql_result A := inl msg.

Definition sql_bind {A B : Type} (c : sql_result A) (k : A -> sql_result B)
  : sql_result B :=
  match c with
  | inl e => inl e
  | inr a => k a
  end.

Notation "x <-- c ;; k" := (sql_bind c (fun x => k))
  (at level 61, c at next level, right associativity).

Definition not_null {A : Type} (column : string) (v : option A) : sql_result A :=
  match v with
  | Some a => inr a
  | None => raise ("null value in column " ++ column ++ " violates not-null constraint")
  end.

Definition project_exists (db : database) (pid : string) : bool :=
  existsb (fun p => p_id p =? pid) (projects db).

(** A NULL tool reference satisfies the foreign key. *)
Definition tool_exists (db : database) (t : option string) : bool :=
  match t with
  | None => true
  | Some i => existsb (fun r => t_id r =? i) (tools db)
  end.

Definition node_id_exists (db : database) (i : string) : bool :=
  existsb (fun r => n_id r =? i) (nodes db).

Definition edge_id_exists (db : database) (i : string) : bool :=
  existsb (fun r => e_id r =? i) (edges db).

(** *** Triggers *)

(** AFTER INSERT ON projects: the start node of the new project. *)
Definition start_node_id (project_id : string) : string := "start_" ++ project_id.

Definition start_node_row (now : nat) (project_id : string) : node_row :=
  {| n_id := start_node_id project_id;
     n_project_id := project_id;
     n_title := "Start";
     n_prompt := Some "This is the starting point of your flow";
     n_node_type := "start";
     n_tool_id := None;
     n_position_x := 50;
     n_position_y := 50;
     n_created_at := now;
     n_updated_at := now |}.

Definition create_start_node_for_project (now : nat) (new : project_row)
    (db : database) : sql_result database :=
  if node_id_exists db (start_node_id (p_id new)) then
    raise "duplicate key value violates unique constraint nodes_pkey"
  else
    inr (with_nodes db (nodes db ++ [start_node_row now (p_id new)])).

(** INSERT INTO projects, with its row trigger. *)
Definition insert_project (now : nat) (new : project_row) (db : database)
  : sql_result database :=
  if project_exists db (p_id new) then
    raise "duplicate key value violates unique constraint projects_pkey"
  else
    create_start_node_for_project now new (with_projects db (projects db ++ [new])).

(** BEFORE DELETE ON nodes. *)
Definition prevent_start_node_deletion (old : node_row) : sql_result node_row :=
  if n_node_type old =? "start" then raise "Cannot delete start node" else inr old.

(** DELETE FROM nodes WHERE ...: the trigger runs for each row selected. *)
Fixpoint delete_from_nodes (where_ : node_row -> bool) (rows : list node_row)
  : sql_result (list node_row) :=
  match rows with
  | [] => inr []
  | r :: rest =>
      if where_ r then
        _ <-- prevent_start_node_deletion r ;;
        delete_from_nodes where_ rest
      else
        rest' <-- delete_from_nodes where_ rest ;;
        inr (r :: rest')
  end.

(** *** save_flow *)

(** An element of the JSONB array p_nodes; [->>] yields NULL for a key that is
    absent or null. *)
Record json_node := {
  jn_id : option string;
  jn_project_id : option string;
  jn_title : option string;
  jn_prompt : option string;
  jn_node_type : option string;
  jn_tool_id : option string;
  jn_position_x : option Z;
  jn_position_y : option Z
}.

Record json_edge := {
  je_id : option string;
  je_project_id : option string;
  je_source_id : option string;
  je_target_id : option string;
  je_label : option string;
  je_prompt : option string
}.

(** [(value->>'node_type') = 'start'], NULL counting as not selected. *)
Definition json_is_start (v : json_node) : bool :=
  match jn_node_type v with
  | Some t => t =? "start"
  | None => false
  end.

Definition has_start_node (p_nodes : list json_node) : bool :=
  existsb json_is_start p_nodes.

(** The row proposed for insertion from one array element. *)
Definition node_values (now : nat) (v : json_node) : sql_result node_row :=
  i <-- not_null "id" (jn_id v) ;;
  pid <-- not_null "project_id" (jn_project_id v) ;;
  title <-- not_null "title" (jn_title v) ;;
  ty <-- not_null "node_type" (jn_node_type v) ;;
  x <-- not_null "position_x" (jn_position_x v) ;;
  y <-- not_null "position_y" (jn_position_y v) ;;
  inr {| n_id := i; n_project_id := pid; n_title := title;
         n_prompt := jn_prompt v; n_node_type := ty; n_tool_id := jn_tool_id v;
         n_position_x := x; n_position_y := y;
         n_created_at := now; n_updated_at := now |}.

(** ON CONFLICT (id) DO UPDATE SET ...: project_id and created_at stay. *)
Definition excluded_update (now : nat) (excluded r : node_row) : node_row :=
  {| n_id := n_id r;
     n_project_id := n_project_id r;
     n_title := n_title excluded;
     n_prompt := n_prompt excluded;
     n_node_type := n_node_type excluded;
     n_tool_id := n_tool_id excluded;
     n_position_x := n_position_x excluded;
     n_position_y := n_position_y excluded;
     n_created_at := n_created_at r;
     n_updated_at := now |}.

Definition on_conflict_update (now : nat) (excluded : node_row)
    (rows : list node_row) : list node_row :=
  map (fun r => if n_id r =? n_id excluded then excluded_update now excluded r else r)
      rows.

(** One proposed row; [touched] holds the ids this command already wrote. *)
Definition upsert_node (now : nat) (touched : list string) (excluded : node_row)
    (db : database) : sql_result database :=
  if existsb (String.eqb (n_id excluded)) touched then
    raise "ON CONFLICT DO UPDATE command cannot affect row a second time"
  else if negb (tool_exists db (n_tool_id excluded)) then
    raise "insert or update on table nodes violates foreign key constraint nodes_tool_id_fkey"
  else if node_id_exists db (n_id excluded) then
    inr (with_nodes db (on_conflict_update now excluded (nodes db)))
  else if negb (project_exists db (n_project_id excluded)) then
    raise "insert or update on table nodes violates foreign key constraint nodes_project_id_fkey"
  else
    inr (with_nodes db (nodes db ++ [excluded])).

Fixpoint insert_nodes_on_conflict (now : nat) (touched : list string)
    (p_nodes : list json_node) (db : database) : sql_result database :=
  match p_nodes with
  | [] => inr db
  | v :: rest =>
      excluded <-- node_values now v ;;
      db' <-- upsert_node now touched excluded db ;;
      insert_nodes_on_conflict now (n_id excluded :: touched) rest db'
  end.

Definition edge_values (now : nat) (v : json_edge) : sql_result edge_row :=
  i <-- not_null "id" (je_id v) ;;
  pid <-- not_null "project_id" (je_project_id v) ;;
  s <-- not_null "source_id" (je_source_id v) ;;
  t <-- not_null "target_id" (je_target_id v) ;;
  inr {| e_id := i; e_project_id := pid; e_source_id := s; e_target_id := t;
         e_label := je_label v; e_prompt := je_prompt v;
         e_created_at := now; e_updated_at := now |}.

Definition insert_edge (r : edge_row) (db : database) : sql_result database :=
  if edge_id_exists db (e_id r) then
    raise "duplicate key value violates unique constraint edges_pkey"
  else if negb (project_exists db (e_project_id r)) then
    raise "insert or update on table edges violates foreign key constraint edges_project_id_fkey"
  else
    inr (with_edges db (edges db ++ [r])).

Fixpoint insert_edges (now : nat) (p_edges : list json_edge) (db : database)
  : sql_result database :=
  match p_edges with
  | [] => inr db
  | v :: rest =>
      r <-- edge_values now v ;;
      db' <-- insert_edge r db ;;
      insert_edges now rest db'
  end.

(** The two DELETE statements. *)
Definition delete_phase (p_project_id : string) (db : database)
  : sql_result database :=
  rows <-- delete_from_nodes
             (fun r => (n_project_id r =? p_project_id)
                       && negb (n_node_type r =? "start"))
             (nodes db) ;;
  inr (with_edges (with_nodes db rows)
         (filter (fun r => negb (e_project_id r =? p_project_id)) (edges db))).

Definition touch_project (now : nat) (p_project_id : string) (db : database)
  : database :=
  with_projects db
    (map (fun p => if p_id p =? p_project_id then
                     {| p_id := p_id p; p_name := p_name p;
                        p_description := p_description p;
                        p_created_at := p_created_at p;
                        p_updated_at := now |}
                   else p)
         (projects db)).

(** The statements that follow the DELETEs. *)
Definition write_phase (now : nat) (p_project_id : string)
    (p_nodes : list json_node) (p_edges : list json_edge) (db : database)
  : sql_result database :=
  db1 <-- insert_nodes_on_conflict now [] p_nodes db ;;
  db2 <-- insert_edges now p_edges db1 ;;
  inr (touch_project now p_project_id db2).

Definition save_flow (now : nat) (p_project_id : string)
    (p_nodes : list json_node) (p_edges : list json_edge) (db : database)
  : sql_result database :=
  if negb (has_start_node p_nodes) then
    raise "Flow must include a start node"
  else
    db1 <-- delete_phase p_project_id db ;;
    write_phase now p_project_id p_nodes p_edges db1.

(** A function call is one transaction: the body has no exception handler, so
    a raise anywhere in it undoes every statement it ran. *)
Definition transaction {A : Type} (body : database -> sql_result (database * A))
    (db : database) : database * sql_result A :=
  match body db with
  | inl e => (db, inl e)
  | inr (db', a) => (db', inr a)
  end.

(** *** Table requests served by the store *)

(** A node as the read-side join [*, tool:tools( * )] returns it: the tool is
    null when the reference is null. *)
Record node_with_tool := {
  row : node_row;
  tool : option tool_row
}.

Definition join_tool (db : database) (r : node_row) : node_with_tool :=
  {| row := r;
     tool := match n_tool_id r with
             | Some i => find (fun t => t_id t =? i) (tools db)
             | None => None
             end |}.

Definition select_nodes_by_project (db : database) (project_id : string)
  : list node_with_tool :=
  map (join_tool db) (filter (fun r => n_project_id r =? project_id) (nodes db)).

Definition select_edges_by_project (db : database) (project_id : string)
  : list edge_row :=
  filter (fun r => e_project_id r =? project_id) (edges db).

(** [.single()]: exactly one row, or an error. *)
Definition single {A : Type} (rows : list A) : sql_result A :=
  match rows with
  | [r] => inr r
  | _ => raise "JSON object requested, multiple (or no) rows returned"
  end.

(** The columns an update may carry; [None] is an absent key. *)
Record node_updates := {
  u_title : option string;
  u_prompt : option (option string);
  u_node_type : option string;
  u_tool_id : option (option string);
  u_position_x : option Z;
  u_position_y : option Z
}.

Definition supplied {A : Type} (v : option A) (old : A) : A :=
  match v with
  | Some a => a
  | None => old
  end.

Definition apply_updates (u : node_updates) (r : node_row) : node_row :=
  {| n_id := n_id r;
     n_project_id := n_project_id r;
     n_title := supplied (u_title u) (n_title r);
     n_prompt := supplied (u_prompt u) (n_prompt r);
     n_node_type := supplied (u_node_type u) (n_node_type r);
     n_tool_id := supplied (u_tool_id u) (n_tool_id r);
     n_position_x := supplied (u_position_x u) (n_position_x r);
     n_position_y := supplied (u_position_y u) (n_position_y r);
     n_created_at := n_created_at r;
     n_updated_at := n_updated_at r |}.

(** UPDATE nodes SET ... WHERE id = ... RETURNING *, read with [.single()]. *)
Definition update_node_by_id (i : string) (u : node_updates) (db : database)
  : sql_result (database * node_row) :=
  let rows := map (fun r => if n_id r =? i then apply_updates u r else r) (nodes db) in
  if node_id_exists db i && negb (tool_exists db (supplied (u_tool_id u) None)) then
    raise "insert or update on table nodes violates foreign key constraint nodes_tool_id_fkey"
  else
    r <-- single (filter (fun r => n_id r =? i) rows) ;;
    inr (with_nodes db rows, r).

(** SELECT node_type FROM nodes WHERE id = ..., read with [.single()]. *)
Definition select_node_type_by_id (i : string) (db : database)
  : sql_result (database * string) :=
  t <-- single (map n_node_type (filter (fun r => n_id r =? i) (nodes db))) ;;
  inr (db, t).

(** DELETE FROM nodes WHERE id = ... *)
Definition delete_node_by_id (i : string) (db : database)
  : sql_result (database * unit) :=
  rows <-- delete_from_nodes (fun r => n_id r =? i) (nodes db) ;;
  inr (with_nodes db rows, tt).

(** DELETE FROM edges WHERE id = ... *)
Definition delete_edge_by_id (i : string) (db : database)
  : sql_result (database * unit) :=
  inr (with_edges db (filter (fun r => negb (e_id r =? i)) (edges db)), tt).

Definition call_save_flow (now : nat) (p_project_id : string)
    (p_nodes : list json_node) (p_edges : list json_edge) (db : database)
  : sql_result (database * unit) :=
  db' <-- save_flow now p_project_id p_nodes p_edges db ;;
  inr (db', tt).

(** UPDATE projects SET updated_at = ... WHERE id = ... RETURNING *. *)
Definition update_project_by_id (updated_at : nat) (i : string) (db : database)
  : sql_result (database * project_row) :=
  let db' := touch_project updated_at i db in
  r <-- single (filter (fun p => p_id p =? i) (projects db')) ;;
  inr (db', r).

(** ** The client *)

Inductive request :=
| select_nodes (project_id : string)
| select_edges (project_id : string)
| select_node_type (id : string)
| update_nodes (id : string) (updates : node_updates)
| delete_nodes (id : string)
| delete_edges (id : string)
| rpc_save_flow (p_project_id : string) (p_nodes : list json_node)
    (p_edges : list json_edge)
| update_projects (id : string).

(** What a session can see and change: the durable store and its clock, the
    fate of the requests still to come ([Some msg] is a request that never
    reaches the store), the requests sent so far and the console. *)
Record world := {
  w_db : database;
  w_clock : nat;
  w_net : list (option string);
  w_requests : list request;
  w_console : list string
}.

Definition M (A : Type) : Type := world -> A * world.

Definition ret {A : Type} (a : A) : M A := fun w => (a, w).

Definition bind {A B : Type} (c : M A) (k : A -> M B) : M B :=
  fun w => let (a, w') := c w in k a w'.

Notation "x <- c ; k" := (bind c (fun x => k))
  (at level 61, c at next level, right associativity).

Definition console_error (line : string) : M unit :=
  fun w => (tt, {| w_db := w_db w; w_clock := w_clock w; w_net := w_net w;
                   w_requests := w_requests w;
                   w_console := w_console w ++ [line] |}).

(** One round trip: the request is recorded, the clock ticks, and either the
    transport fails or the store runs the statement as one transaction. *)
Definition supabase {A : Type} (req : request)
    (statement : nat -> database -> sql_result (database * A))
  : M (sql_result A) :=
  fun w =>
    match hd None (w_net w) with
    | Some msg =>
        (inl msg,
         {| w_db := w_db w; w_clock := S (w_clock w); w_net := tl (w_net w);
            w_requests := w_requests w ++ [req]; w_console := w_console w |})
    | None =>
        let (db', r) := transaction (statement (w_clock w)) (w_db w) in
        (r,
         {| w_db := db'; w_clock := S (w_clock w); w_net := tl (w_net w);
            w_requests := w_requests w ++ [req]; w_console := w_console w |})
    end.

(** ** The service layer (lib/flowService.js, lib/projectService.js) *)

(** What a service hands back: [{ data }], [{ success: true }] or [{ error }]. *)
Inductive result (A : Type) :=
| Data (data : A)
| Success
| Error (error : string).

Arguments Data {A} data.
Arguments Success {A}.
Arguments Error {A} error.

Definition result_data {A : Type} (r : result A) : option A :=
  match r with
  | Data d => Some d
  | _ => None
  end.

Definition result_error {A : Type} (r : result A) : option string :=
  match r with
  | Error e => Some e
  | _ => None
  end.

(** Modelled from the spec: handleSupabaseError of lib/supabase.js, which is
    not among the sources. A store-adapter failure surfaces as a tagged result
    to the caller; it is never thrown. *)
Definition handleSupabaseError {A : Type} (error : string) : result A :=
  Error error.

Definition fetchNodesByProject (projectId : string)
  : M (result (list node_with_tool)) :=
  r <- supabase (select_nodes projectId)
         (fun _ db => inr (db, select_nodes_by_project db projectId)) ;
  match r with
  | inl error => ret (handleSupabaseError error)
  | inr data => ret (Data data)
  end.

Definition fetchEdgesByProject (projectId : string) : M (result (list edge_row)) :=
  r <- supabase (select_edges projectId)
         (fun _ db => inr (db, select_edges_by_project db projectId)) ;
  match r with
  | inl error => ret (handleSupabaseError error)
  | inr data => ret (Data data)
  end.

Definition isStartNode (nodeId : string) : M bool :=
  r <- supabase (select_node_type nodeId)
         (fun _ db => select_node_type_by_id nodeId db) ;
  match r with
  | inl error =>
      _ <- console_error ("Error checking node type: " ++ error) ;
      ret false
  | inr node_type => ret (node_type =? "start")
  end.

Definition delete_node_type (updates : node_updates) : node_updates :=
  {| u_title := u_title updates; u_prompt := u_prompt updates;
     u_node_type := None; u_tool_id := u_tool_id updates;
     u_position_x := u_position_x updates;
     u_position_y := u_position_y updates |}.

(** [updates.node_type && await isStartNode(nodeId)]: the check is only sent
    when the key holds a truthy value. *)
Definition updateNode (nodeId : string) (updates : node_updates)
  : M (result node_row) :=
  guarded <- (match u_node_type updates with
              | Some t => if truthy t then isStartNode nodeId else ret false
              | None => ret false
              end) ;
  let updates := if guarded then delete_node_type updates else updates in
  r <- supabase (update_nodes nodeId updates)
         (fun _ db => update_node_by_id nodeId updates db) ;
  match r with
  | inl error => ret (handleSupabaseError error)
  | inr data => ret (Data data)
  end.

Definition deleteNode (nodeId : string) : M (result unit) :=
  is_start <- isStartNode nodeId ;
  if is_start then
    ret (Error "Cannot delete start node")
  else
    r <- supabase (delete_nodes nodeId)
           (fun _ db => delete_node_by_id nodeId db) ;
    match r with
    | inl error => ret (handleSupabaseError error)
    | inr _ => ret Success
    end.

Definition deleteEdge (edgeId : string) : M (result unit) :=
  r <- supabase (delete_edges edgeId)
         (fun _ db => delete_edge_by_id edgeId db) ;
  match r with
  | inl error => ret (handleSupabaseError error)
  | inr _ => ret Success
  end.

(** [node.node_type === 'start'] on the objects handed to saveFlow. *)
Definition saveFlow (projectId : string) (nodes : list json_node)
    (edges : list json_edge) : M (result unit) :=
  let hasStartNode := existsb json_is_start nodes in
  if negb hasStartNode then
    ret (Error "Flow must include a start node")
  else
    r <- supabase (rpc_save_flow projectId nodes edges)
           (fun now db => call_save_flow now projectId nodes edges db) ;
    match r with
    | inl transactionError => ret (handleSupabaseError transactionError)
    | inr _ => ret Success
    end.

(** updateProject(projectId, { updated_at: new Date().toISOString() }), the
    session reading the same clock as the store. *)
Definition updateProject (projectId : string) : M (result project_row) :=
  r <- supabase (update_projects projectId)
         (fun now db => update_project_by_id now projectId db) ;
  match r with
  | inl error => ret (handleSupabaseError error)
  | inr data => ret (Data data)
  end.

(** ** The canvas page (pages/Flow) *)

(** The inlined tool of a canvas node: undefined, null or the joined row. *)
Inductive js_tool :=
| tool_undefined
| tool_null
| tool_object (t : tool_row).

Record node_data := {
  d_title : string;
  d_prompt : option string;
  d_node_type : string;
  d_tool_id : option string;
  d_tool : js_tool
}.

Record flow_node := {
  fn_id : string;
  fn_type : string;
  fn_position : Z * Z;
  fn_deletable : bool;
  fn_data : node_data
}.

Record edge_data := {
  d_label : option string;
  d_edge_prompt : option string
}.

Record flow_edge := {
  fe_id : string;
  fe_source : string;
  fe_target : string;
  fe_type : string;
  fe_data : option edge_data
}.

(** The React state of the page that the handlers read and set. *)
Record flow_state := {
  st_nodes : list flow_node;
  st_edges : list flow_edge;
  st_hasUnsavedChanges : bool;
  st_error : option string
}.

Definition setNodes (f : list flow_node -> list flow_node) (st : flow_state)
  : flow_state :=
  {| st_nodes := f (st_nodes st); st_edges := st_edges st;
     st_hasUnsavedChanges := st_hasUnsavedChanges st; st_error := st_error st |}.

Definition setEdges (f : list flow_edge -> list flow_edge) (st : flow_state)
  : flow_state :=
  {| st_nodes := st_nodes st; st_edges := f (st_edges st);
     st_hasUnsavedChanges := st_hasUnsavedChanges st; st_error := st_error st |}.

Definition setHasUnsavedChanges (b : bool) (st : flow_state) : flow_state :=
  {| st_nodes := st_nodes st; st_edges := st_edges st;
     st_hasUnsavedChanges := b; st_error := st_error st |}.

(** A pushed change: [new] is read on INSERT and UPDATE only, [old.id] on
    DELETE only. *)
Record payload (R : Type) := {
  eventType : string;
  new : R;
  old_id : string
}.

Arguments eventType {R} _.
Arguments new {R} _.
Arguments old_id {R} _.

(** The canvas node built from a stored row and a resolved tool. *)
Definition updatedNode (newRecord : node_row) (tool : js_tool) : flow_node :=
  {| fn_id := n_id newRecord;
     fn_type := "customNode";
     fn_position := (n_position_x newRecord, n_position_y newRecord);
     fn_deletable := negb (n_node_type newRecord =? "start");
     fn_data :=
       {| d_title := n_title newRecord;
          d_prompt := n_prompt newRecord;
          d_node_type := js_or (Some (n_node_type newRecord)) "default";
          d_tool_id := or_null (n_tool_id newRecord);
          d_tool := tool |} |}.

Definition updatedEdge (newRecord : edge_row) : flow_edge :=
  {| fe_id := e_id newRecord;
     fe_source := e_source_id newRecord;
     fe_target := e_target_id newRecord;
     fe_type := "customEdge";
     fe_data := Some {| d_label := e_label newRecord;
                        d_edge_prompt := e_prompt newRecord |} |}.

(** [nodeWithTool?.find(n => n.id === newRecord.id)] and [fullNode?.tool]. *)
Definition fullNode (nodeWithTool : option (list node_with_tool)) (i : string)
  : option node_with_tool :=
  match nodeWithTool with
  | Some l => find (fun n => n_id (row n) =? i) l
  | None => None
  end.

Definition fullNode_tool (full : option node_with_tool) : js_tool :=
  match full with
  | None => tool_undefined
  | Some n => match tool n with
              | Some t => tool_object t
              | None => tool_null
              end
  end.

(** The updater handed to setNodes on INSERT and UPDATE. *)
Definition mergeNode (updated : flow_node) (prevNodes : list flow_node)
  : list flow_node :=
  let exists_ := existsb (fun node => fn_id node =? fn_id updated) prevNodes in
  if exists_ then
    map (fun node => if fn_id node =? fn_id updated then updated else node) prevNodes
  else
    prevNodes ++ [updated].

Definition mergeEdge (updated : flow_edge) (prevEdges : list flow_edge)
  : list flow_edge :=
  let exists_ := existsb (fun edge => fe_id edge =? fe_id updated) prevEdges in
  if exists_ then
    map (fun edge => if fe_id edge =? fe_id updated then updated else edge) prevEdges
  else
    prevEdges ++ [updated].

(** The callback of the node subscription. *)
Definition onNodeEvent (projectId : string) (p : payload node_row)
    (st : flow_state) : M flow_state :=
  if (eventType p =? "INSERT") || (eventType p =? "UPDATE") then
    fetched <- fetchNodesByProject projectId ;
    let full := fullNode (result_data fetched) (n_id (new p)) in
    let updated := updatedNode (new p) (fullNode_tool full) in
    ret (setNodes (mergeNode updated) st)
  else if eventType p =? "DELETE" then
    ret (setNodes (filter (fun node => negb (fn_id node =? old_id p))) st)
  else
    ret st.

(** The callback of the edge subscription. *)
Definition onEdgeEvent (p : payload edge_row) (st : flow_state) : flow_state :=
  if (eventType p =? "INSERT") || (eventType p =? "UPDATE") then
    setEdges (mergeEdge (updatedEdge (new p))) st
  else if eventType p =? "DELETE" then
    setEdges (filter (fun edge => negb (fe_id edge =? old_id p))) st
  else
    st.

(** The rows handleSave sends. *)
Definition formattedNode (projectId : string) (node : flow_node) : json_node :=
  {| jn_id := Some (fn_id node);
     jn_project_id := Some projectId;
     jn_title := Some (d_title (fn_data node));
     jn_prompt := d_prompt (fn_data node);
     jn_node_type := Some (js_or (Some (d_node_type (fn_data node))) "default");
     jn_tool_id := or_null (d_tool_id (fn_data node));
     jn_position_x := Some (fst (fn_position node));
     jn_position_y := Some (snd (fn_position node)) |}.

Definition formattedEdge (projectId : string) (edge : flow_edge) : json_edge :=
  {| je_id := Some (fe_id edge);
     je_project_id := Some projectId;
     je_source_id := Some (fe_source edge);
     je_target_id := Some (fe_target edge);
     je_label := Some (js_or (match fe_data edge with
                              | Some d => d_label d
                              | None => None
                              end) "");
     je_prompt := Some (js_or (match fe_data edge with
                               | Some d => d_edge_prompt d
                               | None => None
                               end) "") |}.

(** handleSave: the function returns nothing; what it does is in the page
    state it leaves and in the world (requests sent, console lines). A service
    error is thrown as [new Error(error)] and caught by the handler's own
    catch, which writes it to the console. *)
Definition handleSave (projectId : string) (st : flow_state) : M flow_state :=
  if negb (truthy projectId) then
    ret st
  else
    let formattedNodes := map (formattedNode projectId) (st_nodes st) in
    let formattedEdges := map (formattedEdge projectId) (st_edges st) in
    saved <- saveFlow projectId formattedNodes formattedEdges ;
    match result_error saved with
    | Some error =>
        if truthy error then
          _ <- console_error ("Error saving flow: Error: " ++ error) ;
          ret st
        else
          _ <- updateProject projectId ;
          ret (setHasUnsavedChanges false st)
    | None =>
        _ <- updateProject projectId ;
        ret (setHasUnsavedChanges false st)
    end.

(** ** What the properties speak about *)

(** The start nodes a project has in the store, in table order. *)
Definition start_nodes_of (project_id : string) (db : database) : list node_row :=
  filter (fun r => (n_project_id r =? project_id) && (n_node_type r =? "start"))
         (nodes db).

Definition nodes_of (project_id : string) (db : database) : list node_row :=
  filter (fun r => n_project_id r =? project_id) (nodes db).

(** The primary key of nodes. *)
Definition nodes_pkey (db : database) : Prop := NoDup (map n_id (nodes db)).

(** The foreign key of nodes to projects. *)
Definition nodes_project_fkey (db : database) : Prop :=
  forall r, In r (nodes db) -> project_exists db (n_project_id r) = true.

(** The request sent as the [k]-th from now reaches the store. *)
Definition reaches_store (k : nat) (w : world) : Prop :=
  nth k (w_net w) None = None.

(** The nodes table after the rows proposed by one INSERT ... ON CONFLICT have
    been written over [table]: a stored row whose id is proposed takes the
    proposed columns, and the proposed rows with a new id follow. *)
Definition written_over (now : nat) (proposed table : list node_row)
  : list node_row :=
  map (fun r => match find (fun ex => n_id ex =? n_id r) proposed with
                | Some ex => excluded_update now ex r
                | None => r
                end)
      table
  ++ filter (fun ex => negb (existsb (fun r => n_id r =? n_id ex) table)) proposed.

(** The merge both updaters perform, over any entity with a string id. *)
Definition merge_by_id {A : Type} (key : A -> string) (updated : A)
    (prev : list A) : list A :=
  if existsb (fun x => key x =? key updated) prev then
    map (fun x => if key x =? key updated then updated else x) prev
  else
    prev ++ [updated].

(** The key constraints of the nodes table, together. *)
Definition keys_hold (db : database) : Prop :=
  nodes_pkey db /\ nodes_project_fkey db.

(** ** A small store and session used to exercise the properties *)

Definition demo_project_id : string := "7d9f1c0e-3b52-4a6e-9c41-0f2a6b8d5e13".

Definition demo_project : project_row :=
  {| p_id := demo_project_id; p_name := "P"; p_description := None;
     p_created_at := 0; p_updated_at := 0 |}.

Definition empty_db : database :=
  {| projects := []; tools := []; nodes := []; edges := [] |}.

(** The store right after the project was created. *)
Definition demo_db : database :=
  {| projects := [demo_project];
     tools := [];
     nodes := [start_node_row 0 demo_project_id];
     edges := [] |}.

Definition demo_n1 : node_row :=
  {| n_id := "node_1700000000000"; n_project_id := demo_project_id;
     n_title := "Greeting"; n_prompt := Some "Say hello";
     n_node_type := "default"; n_tool_id := None;
     n_position_x := 320; n_position_y := 180;
     n_created_at := 1; n_updated_at := 1 |}.

Definition demo_e1 : edge_row :=
  {| e_id := "xy-edge__start-node_1700000000000";
     e_project_id := demo_project_id;
     e_source_id := start_node_id demo_project_id;
     e_target_id := "node_1700000000000";
     e_label := Some "Add Condition";
     e_prompt := Some "Describe the condition for this transition";
     e_created_at := 1; e_updated_at := 1 |}.

(** The store after one more node and one edge were saved. *)
Definition demo_db2 : database :=
  {| projects := [demo_project];
     tools := [];
     nodes := [start_node_row 0 demo_project_id; demo_n1];
     edges := [demo_e1] |}.

Definition demo_world (db : database) (net : list (option string)) : world :=
  {| w_db := db; w_clock := 2; w_net := net; w_requests := []; w_console := [] |}.

Definition demo_start_node : flow_node :=
  updatedNode (start_node_row 0 demo_project_id) tool_null.

Definition demo_state (dirty : bool) : flow_state :=
  {| st_nodes := [demo_start_node; updatedNode demo_n1 tool_null];
     st_edges := [updatedEdge demo_e1];
     st_hasUnsavedChanges := dirty;
     st_error := None |}.


Definition demo_n2 : node_row :=
  {| n_id := "node_1700000000999"; n_project_id := demo_project_id;
     n_title := "Goodbye"; n_prompt := None;
     n_node_type := "default"; n_tool_id := None;
     n_position_x := 10; n_position_y := 20;
     n_created_at := 2; n_updated_at := 2 |}.



Definition demo_insert_n2 : payload node_row :=
  {| eventType := "INSERT"; new := demo_n2; old_id := "" |}.



(** A dirty page whose start node is missing from the local nodes. *)
Definition demo_state_without_start : flow_state :=
  {| st_nodes := [updatedNode demo_n1 tool_null];
     st_edges := [];
     st_hasUnsavedChanges := true;
     st_error := None |}.

Definition demo_updates : node_updates :=
  {| u_title := Some "Entry"; u_prompt := None; u_node_type := Some "tool";
     u_tool_id := None; u_position_x := None; u_position_y := None |}.

Definition demo_updates_empty_kind : node_updates :=
  {| u_title := None; u_prompt := None; u_node_type := Some "";
     u_tool_id := None; u_position_x := None; u_position_y := None |}.

(** The graph of [demo_state], as handleSave sends it. *)
Definition demo_nodes : list json_node :=
  map (formattedNode demo_project_id) (st_nodes (demo_state true)).

Definition demo_edges : list json_edge :=
  map (formattedEdge demo_project_id) (st_edges (demo_state true)).

Definition json_of_row (r : node_row) (node_type : string) : json_node :=
  {| jn_id := Some (n_id r); jn_project_id := Some (n_project_id r);
     jn_title := Some (n_title r); jn_prompt := n_prompt r;
     jn_node_type := Some node_type; jn_tool_id := n_tool_id r;
     jn_position_x := Some (n_position_x r);
     jn_position_y := Some (n_position_y r) |}.

(** A node set in which a second node is of kind start as well. *)
Definition demo_nodes_two_starts : list json_node :=
  [json_of_row (start_node_row 0 demo_project_id) "start";
   json_of_row demo_n1 "start"].

(** A node set in which the kinds of the start node and of another node are
    swapped. *)
Definition demo_nodes_kind_swapped : list json_node :=
  [json_of_row (start_node_row 0 demo_project_id) "default";
   json_of_row demo_n1 "start"].

(** A save that drops [demo_n1] and sends the same edge twice. *)
Definition demo_nodes_start_only : list json_node :=
  [json_of_row (start_node_row 0 demo_project_id) "start"].


(** ** The other statements the services send *)

(** INSERT INTO nodes of one object, RETURNING *: a key that is absent takes
    the column default, which only node_type and the timestamps have. *)
Definition insert_node_values (now : nat) (v : json_node) : sql_result node_row :=
  i <-- not_null "id" (jn_id v) ;;
  pid <-- not_null "project_id" (jn_project_id v) ;;
  title <-- not_null "title" (jn_title v) ;;
  x <-- not_null "position_x" (jn_position_x v) ;;
  y <-- not_null "position_y" (jn_position_y v) ;;
  inr {| n_id := i; n_project_id := pid; n_title := title;
         n_prompt := jn_prompt v;
         n_node_type := match jn_node_type v with
                        | Some t => t
                        | None => "default"
                        end;
         n_tool_id := jn_tool_id v;
         n_position_x := x; n_position_y := y;
         n_created_at := now; n_updated_at := now |}.

Definition insert_node_row (now : nat) (v : json_node) (db : database)
  : sql_result (database * node_row) :=
  r <-- insert_node_values now v ;;
  if node_id_exists db (n_id r) then
    raise "duplicate key value violates unique constraint nodes_pkey"
  else if negb (project_exists db (n_project_id r)) then
    raise "insert or update on table nodes violates foreign key constraint nodes_project_id_fkey"
  else if negb (tool_exists db (n_tool_id r)) then
    raise "insert or update on table nodes violates foreign key constraint nodes_tool_id_fkey"
  else
    inr (with_nodes db (nodes db ++ [r]), r).

Definition insert_edge_row (now : nat) (v : json_edge) (db : database)
  : sql_result (database * edge_row) :=
  r <-- edge_values now v ;;
  db' <-- insert_edge r db ;;
  inr (db', r).

Record edge_updates := {
  ue_source_id : option string;
  ue_target_id : option string;
  ue_label : option (option string);
  ue_prompt : option (option string)
}.

Definition apply_edge_updates (u : edge_updates) (r : edge_row) : edge_row :=
  {| e_id := e_id r;
     e_project_id := e_project_id r;
     e_source_id := supplied (ue_source_id u) (e_source_id r);
     e_target_id := supplied (ue_target_id u) (e_target_id r);
     e_label := supplied (ue_label u) (e_label r);
     e_prompt := supplied (ue_prompt u) (e_prompt r);
     e_created_at := e_created_at r;
     e_updated_at := e_updated_at r |}.

(** UPDATE edges SET ... WHERE id = ... RETURNING *, read with [.single()]. *)
Definition update_edge_by_id (i : string) (u : edge_updates) (db : database)
  : sql_result (database * edge_row) :=
  let rows := map (fun r => if e_id r =? i then apply_edge_updates u r else r)
                  (edges db) in
  r <-- single (filter (fun r => e_id r =? i) rows) ;;
  inr (with_edges db rows, r).

(** SELECT * FROM projects WHERE id = ..., read with [.single()]. *)
Definition select_project_by_id (i : string) (db : database)
  : sql_result (database * project_row) :=
  r <-- single (filter (fun p => p_id p =? i) (projects db)) ;;
  inr (db, r).

(** INSERT INTO projects ... RETURNING *: [id] is the UUID the column default
    draws, the timestamps are the store's. *)
Definition insert_project_row (now : nat) (id name : string)
    (description : option string) (db : database)
  : sql_result (database * project_row) :=
  let new := {| p_id := id; p_name := name; p_description := description;
                p_created_at := now; p_updated_at := now |} in
  db' <-- insert_project now new db ;;
  inr (db', new).

(** DELETE FROM projects WHERE id = ...: ON DELETE CASCADE deletes the nodes
    and the edges of the project, and the deletion trigger of nodes runs for
    each node so deleted. *)
Definition delete_project_by_id (i : string) (db : database)
  : sql_result (database * unit) :=
  if project_exists db i then
    rows <-- delete_from_nodes (fun r => n_project_id r =? i) (nodes db) ;;
    inr ({| projects := filter (fun p => negb (p_id p =? i)) (projects db);
            tools := tools db;
            nodes := rows;
            edges := filter (fun r => negb (e_project_id r =? i)) (edges db) |},
         tt)
  else
    inr (db, tt).

(** [tool_id = i], NULL never being equal. *)
Definition references_tool (i : string) (r : node_row) : bool :=
  match n_tool_id r with
  | Some j => j =? i
  | None => false
  end.

Definition clear_tool (r : node_row) : node_row :=
  {| n_id := n_id r; n_project_id := n_project_id r; n_title := n_title r;
     n_prompt := n_prompt r; n_node_type := n_node_type r; n_tool_id := None;
     n_position_x := n_position_x r; n_position_y := n_position_y r;
     n_created_at := n_created_at r; n_updated_at := n_updated_at r |}.

(** DELETE FROM tools WHERE id = ...: ON DELETE SET NULL clears the reference
    of every node that used the tool. *)
Definition delete_tool_by_id (i : string) (db : database)
  : sql_result (database * unit) :=
  inr ({| projects := projects db;
          tools := filter (fun t => negb (t_id t =? i)) (tools db);
          nodes := map (fun r => if references_tool i r then clear_tool r else r)
                       (nodes db);
          edges := edges db |},
       tt).

(** A round trip on a table the request log does not follow. *)
Definition supabase_table {A : Type}
    (statement : nat -> database -> sql_result (database * A))
  : M (sql_result A) :=
  fun w =>
    match hd None (w_net w) with
    | Some msg =>
        (inl msg,
         {| w_db := w_db w; w_clock := S (w_clock w); w_net := tl (w_net w);
            w_requests := w_requests w; w_console := w_console w |})
    | None =>
        let (db', r) := transaction (statement (w_clock w)) (w_db w) in
        (r,
         {| w_db := db'; w_clock := S (w_clock w); w_net := tl (w_net w);
            w_requests := w_requests w; w_console := w_console w |})
    end.

(** ** The other services *)

Definition createNode (nodeData : json_node) : M (result node_row) :=
  r <- supabase_table (fun now db => insert_node_row now nodeData db) ;
  match r with
  | inl error => ret (handleSupabaseError error)
  | inr data => ret (Data data)
  end.

Definition createEdge (edgeData : json_edge) : M (result edge_row) :=
  r <- supabase_table (fun now db => insert_edge_row now edgeData db) ;
  match r with
  | inl error => ret (handleSupabaseError error)
  | inr data => ret (Data data)
  end.

Definition updateEdge (edgeId : string) (updates : edge_updates)
  : M (result edge_row) :=
  r <- supabase_table (fun _ db => update_edge_by_id edgeId updates db) ;
  match r with
  | inl error => ret (handleSupabaseError error)
  | inr data => ret (Data data)
  end.

Definition fetchProjectById (projectId : string) : M (result project_row) :=
  r <- supabase_table (fun _ db => select_project_by_id projectId db) ;
  match r with
  | inl error => ret (handleSupabaseError error)
  | inr data => ret (Data data)
  end.

(** createProject({ name, description, created_at }): [id] is the one the
    store draws for the row, and the session reads the same clock as the
    store for created_at. *)
Definition createProject (id name : string) (description : option string)
  : M (result project_row) :=
  r <- supabase_table (fun now db => insert_project_row now id name description db) ;
  match r with
  | inl error => ret (handleSupabaseError error)
  | inr data => ret (Data data)
  end.

Definition deleteProject (projectId : string) : M (result unit) :=
  r <- supabase_table (fun _ db => delete_project_by_id projectId db) ;
  match r with
  | inl error => ret (handleSupabaseError error)
  | inr _ => ret Success
  end.

Definition deleteTool (toolId : string) : M (result unit) :=
  r <- supabase_table (fun _ db => delete_tool_by_id toolId db) ;
  match r with
  | inl error => ret (handleSupabaseError error)
  | inr _ => ret Success
  end.

(** ** The rest of the canvas page *)

(** [if (error) throw new Error(error)]: what is thrown, if anything. *)
Definition thrown {A : Type} (r : result A) : option string :=
  match result_error r with
  | Some e => if truthy e then Some e else None
  | None => None
  end.

(** The canvas node loadProjectData builds from a fetched node. *)
Definition formattedNodeOfRow (node : node_with_tool) : flow_node :=
  {| fn_id := n_id (row node);
     fn_type := "customNode";
     fn_position := (n_position_x (row node), n_position_y (row node));
     fn_deletable := negb (n_node_type (row node) =? "start");
     fn_data :=
       {| d_title := n_title (row node);
          d_prompt := n_prompt (row node);
          d_node_type := js_or (Some (n_node_type (row node))) "default";
          d_tool_id := or_null (n_tool_id (row node));
          d_tool := match tool node with
                    | Some t => tool_object t
                    | None => tool_null
                    end |} |}.

(** The page state loadProjectData sets besides the graph. *)
Record page := {
  flow : flow_state;
  project : option project_row;
  isLoading : bool
}.

Definition setError (e : option string) (st : flow_state) : flow_state :=
  {| st_nodes := st_nodes st; st_edges := st_edges st;
     st_hasUnsavedChanges := st_hasUnsavedChanges st; st_error := e |}.

Definition list_or_empty {A : Type} (data : option (list A)) : list A :=
  match data with
  | Some l => l
  | None => []
  end.

(** The catch and finally blocks of loadProjectData. *)
Definition load_failed (err : string) (st : flow_state)
    (proj : option project_row) : M page :=
  _ <- console_error ("Error loading project data: Error: " ++ err) ;
  ret {| flow := setError (Some err) st; project := proj; isLoading := false |}.

Definition loadProjectData (projectId : string) (pg : page) : M page :=
  let st0 := setError None (flow pg) in
  fetchedProject <- fetchProjectById projectId ;
  match thrown fetchedProject with
  | Some err => load_failed err st0 (project pg)
  | None =>
      let proj := result_data fetchedProject in
      fetchedNodes <- fetchNodesByProject projectId ;
      match thrown fetchedNodes with
      | Some err => load_failed err st0 proj
      | None =>
          let formattedNodes :=
            map formattedNodeOfRow (list_or_empty (result_data fetchedNodes)) in
          let st1 := setNodes (fun _ => formattedNodes) st0 in
          fetchedEdges <- fetchEdgesByProject projectId ;
          match thrown fetchedEdges with
          | Some err => load_failed err st1 proj
          | None =>
              let formattedEdges :=
                map updatedEdge (list_or_empty (result_data fetchedEdges)) in
              let st2 := setEdges (fun _ => formattedEdges) st1 in
              ret {| flow := setHasUnsavedChanges false st2;
                     project := proj; isLoading := false |}
          end
      end
  end.

(** The keys an object spread over [node.data] may carry. *)
Record node_patch := {
  pt_title : option string;
  pt_prompt : option (option string);
  pt_node_type : option string;
  pt_tool_id : option (option string);
  pt_tool : option js_tool
}.

(** [{ ...node.data, ...data }]. *)
Definition spread_data (old : node_data) (data : node_patch) : node_data :=
  {| d_title := supplied (pt_title data) (d_title old);
     d_prompt := supplied (pt_prompt data) (d_prompt old);
     d_node_type := supplied (pt_node_type data) (d_node_type old);
     d_tool_id := supplied (pt_tool_id data) (d_tool_id old);
     d_tool := supplied (pt_tool data) (d_tool old) |}.

Definition handleNodeSave (nodeId : string) (data : node_patch) (st : flow_state)
  : flow_state :=
  setHasUnsavedChanges true
    (setNodes
       (map (fun node =>
               if fn_id node =? nodeId then
                 {| fn_id := fn_id node; fn_type := fn_type node;
                    fn_position := fn_position node;
                    fn_deletable := fn_deletable node;
                    fn_data := spread_data (fn_data node) data |}
               else node))
       st).

(** The form of EdgeEditModal. *)
Record edge_form := {
  ef_label : string;
  ef_prompt : string
}.

Definition handleEdgeSave (edgeId : string) (formData : edge_form)
    (st : flow_state) : flow_state :=
  setHasUnsavedChanges true
    (setEdges
       (map (fun edge =>
               if fe_id edge =? edgeId then
                 {| fe_id := fe_id edge; fe_source := fe_source edge;
                    fe_target := fe_target edge; fe_type := fe_type edge;
                    fe_data := Some {| d_label := Some (ef_label formData);
                                       d_edge_prompt := Some (ef_prompt formData) |} |}
               else edge))
       st).

(** *** NodeEditModal and EdgeEditModal, the callers of the two handlers *)

Record node_form := {
  f_title : string;
  f_prompt : string;
  f_node_type : string;
  f_tool_id : option string
}.

(** The form the modal shows for a node. *)
Definition node_form_of (node : flow_node) : node_form :=
  {| f_title := js_or (Some (d_title (fn_data node))) "";
     f_prompt := js_or (d_prompt (fn_data node)) "";
     f_node_type := js_or (Some (d_node_type (fn_data node))) "default";
     f_tool_id := or_null (d_tool_id (fn_data node)) |}.

(** onChange of the node type select. *)
Definition changeNodeType (value : string) (formData : node_form) : node_form :=
  {| f_title := f_title formData;
     f_prompt := f_prompt formData;
     f_node_type := value;
     f_tool_id := if value =? "tool" then f_tool_id formData else None |}.

(** The object handleSubmit passes on: the four keys of the form. *)
Definition patch_of_form (formData : node_form) : node_patch :=
  {| pt_title := Some (f_title formData);
     pt_prompt := Some (Some (f_prompt formData));
     pt_node_type := Some (f_node_type formData);
     pt_tool_id := Some (f_tool_id formData);
     pt_tool := None |}.

Definition submitNodeForm (node : flow_node) (formData : node_form)
    (st : flow_state) : flow_state :=
  handleNodeSave (fn_id node) (patch_of_form formData) st.

Definition edge_form_of (edge : flow_edge) : edge_form :=
  {| ef_label := js_or (match fe_data edge with
                        | Some d => d_label d
                        | None => None
                        end) "";
     ef_prompt := js_or (match fe_data edge with
                         | Some d => d_edge_prompt d
                         | None => None
                         end) "" |}.

(** ** The projects page (pages/HomePage) *)

Record home_state := {
  hs_projects : list project_row;
  hs_isCreateModalOpen : bool
}.

(** The callback of the projects subscription. *)
Definition onProjectEvent (p : payload project_row) (prev : list project_row)
  : list project_row :=
  if eventType p =? "INSERT" then
    new p :: prev
  else if eventType p =? "UPDATE" then
    map (fun project => if p_id project =? p_id (new p) then new p else project) prev
  else if eventType p =? "DELETE" then
    filter (fun project => negb (p_id project =? old_id p)) prev
  else
    prev.

(** handleCreateProject: what it returns and the page state it leaves. *)
Definition handleCreateProject (id name : string) (description : option string)
    (hs : home_state) : M (result unit * home_state) :=
  created <- createProject id name description ;
  match thrown created with
  | Some err =>
      _ <- console_error ("Error creating project: Error: " ++ err) ;
      ret (Error err, hs)
  | None =>
      ret (Success,
           {| hs_projects := hs_projects hs; hs_isCreateModalOpen := false |})
  end.

(** ** More inputs to exercise the properties *)

Definition demo_kind_update : node_updates :=
  {| u_title := None; u_prompt := None; u_node_type := Some "tool";
     u_tool_id := None; u_position_x := None; u_position_y := None |}.

(** The foreign key of nodes to tools. *)
Definition nodes_tool_fkey (db : database) : Prop :=
  forall r, In r (nodes db) -> tool_exists db (n_tool_id r) = true.

Definition edges_of (project_id : string) (db : database) : list edge_row :=
  filter (fun r => e_project_id r =? project_id) (edges db).

Definition demo_tool : tool_row :=
  {| t_id := "0b6c2f4e-8a17-4d3b-b5a9-6c1e7f2d9a40"; t_name := "weather";
     t_endpoint := "https://api.example.com/weather"; t_method := "GET";
     t_headers := None; t_body := None |}.

Definition demo_tool_node : node_row :=
  {| n_id := "node_1700000000500"; n_project_id := demo_project_id;
     n_title := "Lookup"; n_prompt := None;
     n_node_type := "tool"; n_tool_id := Some (t_id demo_tool);
     n_position_x := 200; n_position_y := 90;
     n_created_at := 3; n_updated_at := 3 |}.

(** A store with one tool and a node that uses it. *)
Definition demo_db3 : database :=
  {| projects := [demo_project];
     tools := [demo_tool];
     nodes := [start_node_row 0 demo_project_id; demo_tool_node];
     edges := [] |}.

Definition demo_other_project : project_row :=
  {| p_id := "c3a1e8d2-5f4b-4e7a-8b90-2d6f1a3c7e55"; p_name := "Q";
     p_description := None; p_created_at := 1; p_updated_at := 1 |}.

Definition demo_q1 : node_row :=
  {| n_id := "node_1700000000111"; n_project_id := p_id demo_other_project;
     n_title := "Q one"; n_prompt := None;
     n_node_type := "default"; n_tool_id := None;
     n_position_x := 1; n_position_y := 1;
     n_created_at := 1; n_updated_at := 1 |}.

Definition demo_q2 : node_row :=
  {| n_id := "node_1700000000222"; n_project_id := p_id demo_other_project;
     n_title := "Q two"; n_prompt := None;
     n_node_type := "default"; n_tool_id := None;
     n_position_x := 2; n_position_y := 2;
     n_created_at := 1; n_updated_at := 1 |}.

(** A store with a second project. *)
Definition demo_db4 : database :=
  {| projects := [demo_project; demo_other_project];
     tools := [];
     nodes := [start_node_row 0 demo_project_id;
               start_node_row 1 (p_id demo_other_project);
               demo_q1; demo_q2];
     edges := [] |}.

(** A node of the first project that carries the id of [demo_q2]. *)
Definition demo_colliding : node_row :=
  {| n_id := n_id demo_q2; n_project_id := demo_project_id;
     n_title := "P two"; n_prompt := None;
     n_node_type := "default"; n_tool_id := None;
     n_position_x := 7; n_position_y := 7;
     n_created_at := 2; n_updated_at := 2 |}.

Definition demo_nodes_colliding : list json_node :=
  [json_of_row (start_node_row 0 demo_project_id) "start";
   json_of_row demo_colliding "default"].

(** The foreign key of edges to projects. *)
Definition edges_project_fkey (db : database) : Prop :=
  forall r, In r (edges db) -> project_exists db (e_project_id r) = true.

(** A page that has not loaded anything yet. *)
Definition demo_page : page :=
  {| flow := {| st_nodes := []; st_edges := [];
                st_hasUnsavedChanges := false; st_error := None |};
     project := None;
     isLoading := true |}.

(** A page with local work on it. *)
Definition demo_dirty_page : page :=
  {| flow := demo_state true; project := Some demo_project; isLoading := false |}.

Definition demo_project_renamed : project_row :=
  {| p_id := demo_project_id; p_name := "P renamed"; p_description := None;
     p_created_at := 0; p_updated_at := 5 |}.

Definition demo_tool_canvas_node : flow_node :=
  formattedNodeOfRow {| row := demo_tool_node; tool := Some demo_tool |}.

Definition demo_tool_state : flow_state :=
  {| st_nodes := [demo_start_node; demo_tool_canvas_node];
     st_edges := [];
     st_hasUnsavedChanges := false;
     st_error := None |}.

(** An edge between two node ids the store does not have. *)
Definition demo_dangling_edge : json_edge :=
  {| je_id := Some "xy-edge__ghost-phantom";
     je_project_id := Some demo_project_id;
     je_source_id := Some "ghost"; je_target_id := Some "phantom";
     je_label := None; je_prompt := None |}.

(** * Properties *)

(** ** Lists and keys *)

Section ListFacts.

Context {A : Type}.

Lemma existsb_absent (f : A -> bool) (l : list A) :
  (forall x, In x l -> f x = false) -> existsb f l = false.
Proof.
  intros H. destruct (existsb f l) eqn:E; [|reflexivity].
  apply existsb_exists in E. destruct E as [x [Hin Hx]].
  rewrite (H x Hin) in Hx. discriminate.
Qed.

Lemma existsb_false_inv (f : A -> bool) (l : list A) :
  existsb f l = false -> forall x, In x l -> f x = false.
Proof.
  intros E x Hx. destruct (f x) eqn:Fx; [|reflexivity].
  assert (existsb f l = true) by (apply existsb_exists; eauto). congruence.
Qed.

Lemma filter_keeps_all (f : A -> bool) (l : list A) :
  (forall x, In x l -> f x = true) -> filter f l = l.
Proof.
  induction l as [|a l IH]; intros H; simpl; [reflexivity|].
  rewrite (H a (or_introl eq_refl)). f_equal. apply IH.
  intros x Hx. apply H. now right.
Qed.


Lemma filter_twice (f : A -> bool) (l : list A) :
  filter f (filter f l) = filter f l.
Proof.
  apply filter_keeps_all. intros x Hx. now apply filter_In in Hx.
Qed.

Lemma filter_drops_all (f : A -> bool) (l : list A) :
  (forall x, In x l -> f x = false) -> filter f l = [].
Proof.
  induction l as [|a l IH]; intros H; simpl; [reflexivity|].
  rewrite (H a (or_introl eq_refl)). apply IH. intros x Hx. apply H. now right.
Qed.

Lemma find_absent (f : A -> bool) (l : list A) :
  (forall x, In x l -> f x = false) -> find f l = None.
Proof.
  induction l as [|a l IH]; intros H; simpl; [reflexivity|].
  rewrite (H a (or_introl eq_refl)). apply IH. intros x Hx. apply H. now right.
Qed.

Lemma filter_filter (f g : A -> bool) (l : list A) :
  filter f (filter g l) = filter (fun x => g x && f x) l.
Proof.
  induction l as [|a l IH]; simpl; [reflexivity|].
  destruct (g a); simpl; [destruct (f a); simpl; now rewrite IH|exact IH].
Qed.

Lemma NoDup_map_same_key {B : Type} (f : A -> B) (l : list A) (a b : A) :
  NoDup (map f l) -> In a l -> In b l -> f a = f b -> a = b.
Proof.
  induction l as [|x l IH]; intros Hnd Ha Hb Hab; [destruct Ha|].
  simpl in Hnd. apply NoDup_cons_iff in Hnd. destruct Hnd as [Hx Hnd].
  destruct Ha as [->|Ha], Hb as [->|Hb].
  - reflexivity.
  - exfalso. apply Hx. rewrite Hab. now apply in_map.
  - exfalso. apply Hx. rewrite <- Hab. now apply in_map.
  - now apply IH.
Qed.

End ListFacts.

(** Running a service down to the store statements it sends. *)
Ltac run_client := unfold bind, supabase, ret, console_error, transaction.

(** ** Reconciliation of pushed events *)

(** The updaters of setNodes and setEdges are the same merge, keyed by id. *)
Section MergeById.

Variable A : Type.
Variable key : A -> string.

Lemma merge_by_id_present (u : A) (prev : list A) :
  (exists n, In n prev /\ key n = key u) ->
  merge_by_id key u prev = map (fun n => if key n =? key u then u else n) prev.
Proof.
  intros [n [Hin Hid]]. unfold merge_by_id.
  replace (existsb (fun x => key x =? key u) prev) with true; [reflexivity|].
  symmetry. apply existsb_exists. exists n. split; [assumption|].
  now apply String.eqb_eq.
Qed.

Lemma merge_by_id_absent (u : A) (prev : list A) :
  (forall n, In n prev -> key n <> key u) -> merge_by_id key u prev = prev ++ [u].
Proof.
  intros H. unfold merge_by_id. rewrite existsb_absent; [reflexivity|].
  intros x Hx. apply String.eqb_neq. now apply H.
Qed.

Lemma merge_by_id_idempotent (u : A) (prev : list A) :
  merge_by_id key u (merge_by_id key u prev) = merge_by_id key u prev.
Proof.
  destruct (existsb (fun x => key x =? key u) prev) eqn:E.
  - apply existsb_exists in E. destruct E as [n [Hin Hn]].
    apply String.eqb_eq in Hn.
    rewrite (merge_by_id_present u prev) by eauto.
    rewrite merge_by_id_present.
    + rewrite map_map. apply map_ext. intros a.
      destruct (key a =? key u) eqn:Ea.
      * now rewrite String.eqb_refl.
      * now rewrite Ea.
    + exists u. split; [|reflexivity].
      apply in_map_iff. exists n. apply String.eqb_eq in Hn. now rewrite Hn.
  - pose proof (existsb_false_inv _ _ E) as Hno.
    rewrite (merge_by_id_absent u prev)
      by (intros n Hn; apply String.eqb_neq; now apply Hno).
    rewrite merge_by_id_present.
    + rewrite map_app. simpl. rewrite String.eqb_refl. f_equal.
      rewrite <- (map_id prev) at 2. apply map_ext_in. intros a Ha.
      now rewrite (Hno a Ha).
    + exists u. split; [|reflexivity]. apply in_or_app. right. now left.
Qed.

End MergeById.

Lemma mergeNode_by_id (u : flow_node) (prev : list flow_node) :
  mergeNode u prev = merge_by_id fn_id u prev.
Proof. reflexivity. Qed.

Lemma mergeEdge_by_id (u : flow_edge) (prev : list flow_edge) :
  mergeEdge u prev = merge_by_id fe_id u prev.
Proof. reflexivity. Qed.





Lemma mergeNode_idempotent (u : flow_node) (prev : list flow_node) :
  mergeNode u (mergeNode u prev) = mergeNode u prev.
Proof. rewrite !mergeNode_by_id. apply merge_by_id_idempotent. Qed.

Lemma mergeEdge_idempotent (u : flow_edge) (prev : list flow_edge) :
  mergeEdge u (mergeEdge u prev) = mergeEdge u prev.
Proof. rewrite !mergeEdge_by_id. apply merge_by_id_idempotent. Qed.

Lemma onNodeEvent_upsert (projectId : string) (p : payload node_row)
    (st : flow_state) (w : world) :
  eventType p = "INSERT" \/ eventType p = "UPDATE" ->
  onNodeEvent projectId p st w =
    (setNodes
       (mergeNode
          (updatedNode (new p)
             (fullNode_tool
                (fullNode (result_data (fst (fetchNodesByProject projectId w)))
                          (n_id (new p))))))
       st,
     snd (fetchNodesByProject projectId w)).
Proof.
  intros H. unfold onNodeEvent.
  replace ((eventType p =? "INSERT") || (eventType p =? "UPDATE")) with true
    by (destruct H as [H|H]; rewrite H; reflexivity).
  unfold bind. destruct (fetchNodesByProject projectId w) as [r w']. reflexivity.
Qed.






(** C9. Merging the same INSERT or UPDATE change twice gives the state that
    merging it once gives: for the setNodes and setEdges updaters at any
    normalised node or edge, for the edge callback, and for the node callback
    when the supplemental fetch answers both times as it does in [w]. *)
Theorem change_event_twice_is_once :
  forall (projectId : string) (p : payload node_row) (q : payload edge_row)
         (u : flow_node) (v : flow_edge) (st : flow_state) (w : world),
    mergeNode u (mergeNode u (st_nodes st)) = mergeNode u (st_nodes st)
    /\ mergeEdge v (mergeEdge v (st_edges st)) = mergeEdge v (st_edges st)
    /\ fst (onNodeEvent projectId p (fst (onNodeEvent projectId p st w)) w)
       = fst (onNodeEvent projectId p st w)
    /\ onEdgeEvent q (onEdgeEvent q st) = onEdgeEvent q st.
Proof.
  intros projectId p q u v st w.
  split; [apply mergeNode_idempotent|].
  split; [apply mergeEdge_idempotent|].
  split.
  - destruct ((eventType p =? "INSERT") || (eventType p =? "UPDATE")) eqn:E.
    + assert (eventType p = "INSERT" \/ eventType p = "UPDATE") as H.
      { apply orb_true_iff in E. destruct E as [E|E]; apply String.eqb_eq in E; auto. }
      rewrite !(onNodeEvent_upsert _ _ _ _ H). simpl. unfold setNodes. simpl.
      now rewrite mergeNode_idempotent.
    + unfold onNodeEvent. rewrite E.
      destruct (eventType p =? "DELETE"); simpl; [|reflexivity].
      unfold setNodes. simpl. now rewrite filter_twice.
  - destruct ((eventType q =? "INSERT") || (eventType q =? "UPDATE")) eqn:E.
    + unfold onEdgeEvent. rewrite E. unfold setEdges. simpl.
      now rewrite mergeEdge_idempotent.
    + unfold onEdgeEvent. rewrite E.
      destruct (eventType q =? "DELETE"); [|reflexivity].
      unfold setEdges. simpl. now rewrite filter_twice.
Qed.

(** C8, as the code has it. When the supplemental fetch of a node INSERT or
    UPDATE fails, the callback still returns a page state (nothing is
    thrown), the store is as it was, and the pushed row is merged all the
    same, with the inlined tool left undefined. *)
Theorem failed_fetch_merges_without_tool :
  forall (projectId : string) (p : payload node_row) (st : flow_state)
         (w : world) (e : string),
    eventType p = "INSERT" \/ eventType p = "UPDATE" ->
    fst (fetchNodesByProject projectId w) = Error e ->
    fst (onNodeEvent projectId p st w)
      = setNodes (mergeNode (updatedNode (new p) tool_undefined)) st
    /\ w_db (snd (onNodeEvent projectId p st w)) = w_db w.
Proof.
  intros projectId p st w e Hev Hfail.
  rewrite (onNodeEvent_upsert _ _ _ _ Hev). simpl. rewrite Hfail. simpl.
  split; [reflexivity|].
  revert Hfail. unfold fetchNodesByProject. run_client.
  destruct (hd None (w_net w)); simpl; [reflexivity|discriminate].
Qed.

Lemma failed_fetch_merges_without_tool_witness :
  st_nodes (fst (onNodeEvent demo_project_id demo_insert_n2 (demo_state false)
                   (demo_world demo_db2 [Some "TypeError: Failed to fetch"])))
  = st_nodes (demo_state false) ++ [updatedNode demo_n2 tool_undefined].
Proof.
  destruct (failed_fetch_merges_without_tool demo_project_id demo_insert_n2
              (demo_state false)
              (demo_world demo_db2 [Some "TypeError: Failed to fetch"])
              "TypeError: Failed to fetch") as [H _].
  - left. reflexivity.
  - reflexivity.
  - rewrite H. reflexivity.
Defined.

(** C8, as the claim has it, fails: the fetch fails and the local nodes are
    not what they were. *)
Lemma failed_fetch_changes_local_state :
  let w := demo_world demo_db2 [Some "TypeError: Failed to fetch"] in
  let st := demo_state false in
  fst (fetchNodesByProject demo_project_id w) = Error "TypeError: Failed to fetch"
  /\ fst (onNodeEvent demo_project_id demo_insert_n2 st w) <> st.
Proof.
  cbv zeta. split; [reflexivity|].
  intros H. apply (f_equal (fun s => List.length (st_nodes s))) in H.
  vm_compute in H. discriminate.
Qed.

(** ** Saving from the page *)

Lemma saveFlow_trace (projectId : string) (ns : list json_node)
    (es : list json_edge) (w : world) :
  w_console (snd (saveFlow projectId ns es w)) = w_console w
  /\ (w_requests (snd (saveFlow projectId ns es w)) = w_requests w
      \/ w_requests (snd (saveFlow projectId ns es w))
         = w_requests w ++ [rpc_save_flow projectId ns es]).
Proof.
  unfold saveFlow. destruct (negb (existsb json_is_start ns)); simpl.
  - auto.
  - unfold bind, supabase.
    destruct (hd None (w_net w)); simpl.
    + auto.
    + destruct (transaction (fun db => call_save_flow (w_clock w) projectId ns es db)
                  (w_db w)) as [db' [e|[]]]; simpl; auto.
Qed.

(** C5, as the code has it. When saveFlow answers with a (non-empty) error,
    handleSave leaves the whole page state as it was, the dirty flag included;
    the error goes to the console and nowhere else; and the save procedure
    was requested at most once. *)
Theorem failed_save_keeps_page_state :
  forall (projectId : string) (st : flow_state) (w : world) (m : string),
    truthy projectId = true ->
    truthy m = true ->
    fst (saveFlow projectId (map (formattedNode projectId) (st_nodes st))
           (map (formattedEdge projectId) (st_edges st)) w) = Error m ->
    fst (handleSave projectId st w) = st
    /\ w_console (snd (handleSave projectId st w))
       = w_console w ++ [("Error saving flow: Error: " ++ m)%string]
    /\ (w_requests (snd (handleSave projectId st w)) = w_requests w
        \/ w_requests (snd (handleSave projectId st w))
           = w_requests w
             ++ [rpc_save_flow projectId
                   (map (formattedNode projectId) (st_nodes st))
                   (map (formattedEdge projectId) (st_edges st))]).
Proof.
  intros projectId st w m Hp Hm Hfail.
  pose proof (saveFlow_trace projectId (map (formattedNode projectId) (st_nodes st))
                (map (formattedEdge projectId) (st_edges st)) w) as [Hc Hr].
  unfold handleSave. rewrite Hp. simpl. unfold bind.
  destruct (saveFlow projectId (map (formattedNode projectId) (st_nodes st))
              (map (formattedEdge projectId) (st_edges st)) w) as [r w1].
  simpl in *. subst r. simpl. rewrite Hm. simpl.
  rewrite Hc. auto.
Qed.

Lemma failed_save_keeps_page_state_witness :
  fst (handleSave demo_project_id demo_state_without_start (demo_world demo_db2 []))
  = demo_state_without_start.
Proof.
  apply (failed_save_keeps_page_state demo_project_id demo_state_without_start
           (demo_world demo_db2 []) "Flow must include a start node");
    reflexivity.
Defined.

(** C5, as the claim has it, fails: the save fails with a reason, and the
    page state handleSave leaves is the one it found, with no error in it. *)
Lemma failed_save_reason_not_surfaced :
  let st := demo_state_without_start in
  let w := demo_world demo_db2 [] in
  fst (saveFlow demo_project_id (map (formattedNode demo_project_id) (st_nodes st))
         (map (formattedEdge demo_project_id) (st_edges st)) w)
  = Error "Flow must include a start node"
  /\ fst (handleSave demo_project_id st w) = st
  /\ st_error (fst (handleSave demo_project_id st w))
     <> Some "Flow must include a start node".
Proof.
  cbv zeta. split; [reflexivity|]. split; [reflexivity|].
  vm_compute. discriminate.
Qed.

(** ** The service layer *)

Lemma no_start_node (ns : list json_node) :
  (forall n, In n ns -> jn_node_type n <> Some "start") ->
  existsb json_is_start ns = false.
Proof.
  intros H. apply existsb_absent. intros n Hn. unfold json_is_start.
  destruct (jn_node_type n) as [t|] eqn:E; [|reflexivity].
  apply String.eqb_neq. intros ->. now apply (H n Hn).
Qed.

(** C6. With no node of kind start among the supplied nodes, saveFlow answers
    with the error and leaves the world exactly as it was: no request is
    sent, so the procedure is not called and the store is untouched. The
    procedure has the same check and raises when called directly. *)
Theorem save_without_start_node_is_rejected :
  forall (projectId : string) (ns : list json_node) (es : list json_edge)
         (w : world) (now : nat) (db : database),
    (forall n, In n ns -> jn_node_type n <> Some "start") ->
    saveFlow projectId ns es w = (Error "Flow must include a start node", w)
    /\ save_flow now projectId ns es db = inl "Flow must include a start node".
Proof.
  intros projectId ns es w now db H. apply no_start_node in H.
  unfold saveFlow, save_flow, has_start_node. rewrite H. simpl. auto.
Qed.

Lemma save_without_start_node_is_rejected_witness :
  w_requests
    (snd (saveFlow demo_project_id
            (map (formattedNode demo_project_id) (st_nodes demo_state_without_start))
            [] (demo_world demo_db2 [])))
  = [].
Proof.
  destruct (save_without_start_node_is_rejected demo_project_id
              (map (formattedNode demo_project_id) (st_nodes demo_state_without_start))
              [] (demo_world demo_db2 []) 0 demo_db2) as [H _].
  - intros n [Hn|[]]. subst n. vm_compute. discriminate.
  - rewrite H. reflexivity.
Defined.

Lemma delete_from_nodes_no_match (where_ : node_row -> bool) (rows : list node_row) :
  (forall r, In r rows -> where_ r = false) ->
  delete_from_nodes where_ rows = inr rows.
Proof.
  induction rows as [|r rows IH]; intros H; simpl; [reflexivity|].
  rewrite (H r (or_introl eq_refl)). rewrite IH; [reflexivity|].
  intros x Hx. apply H. now right.
Qed.

Lemma with_nodes_same (db : database) : with_nodes db (nodes db) = db.
Proof. now destruct db. Qed.

Lemma with_edges_same (db : database) : with_edges db (edges db) = db.
Proof. now destruct db. Qed.

Lemma second_request_reaches (w : world) :
  reaches_store 1 w -> hd None (tl (w_net w)) = None.
Proof.
  unfold reaches_store. destruct (w_net w) as [|a [|b l]]; simpl; auto.
Qed.

Lemma first_request_reaches (w : world) :
  reaches_store 0 w -> hd None (w_net w) = None.
Proof.
  unfold reaches_store. destruct (w_net w) as [|a l]; simpl; auto.
Qed.

(** C10. Deleting a node or an edge whose id is not in the store answers
    [{ success: true }], provided the delete request itself reaches the
    store; the store is left as it was. For a node the preliminary start-node
    check finds no row, is logged, and counts as "not a start node". *)
Theorem deleting_absent_entity_succeeds :
  forall (i : string) (w : world),
    ((forall r, In r (nodes (w_db w)) -> n_id r <> i) ->
     reaches_store 1 w ->
     fst (deleteNode i w) = Success /\ w_db (snd (deleteNode i w)) = w_db w)
    /\ ((forall r, In r (edges (w_db w)) -> e_id r <> i) ->
        reaches_store 0 w ->
        fst (deleteEdge i w) = Success /\ w_db (snd (deleteEdge i w)) = w_db w).
Proof.
  intros i w. split.
  - intros Habs Hnet. apply second_request_reaches in Hnet.
    assert (delete_from_nodes (fun r => n_id r =? i) (nodes (w_db w))
            = inr (nodes (w_db w))) as Hdel.
    { apply delete_from_nodes_no_match. intros r Hr.
      apply String.eqb_neq. now apply Habs. }
    assert (filter (fun r => n_id r =? i) (nodes (w_db w)) = []) as Hsel.
    { apply filter_drops_all. intros r Hr. apply String.eqb_neq. now apply Habs. }
    unfold deleteNode, isStartNode, select_node_type_by_id, delete_node_by_id.
    run_client.
    destruct (hd None (w_net w)); simpl.
    + rewrite Hnet. rewrite Hdel. simpl. now rewrite with_nodes_same.
    + rewrite Hsel. simpl. rewrite Hnet. rewrite Hdel. simpl.
      now rewrite with_nodes_same.
  - intros Habs Hnet. apply first_request_reaches in Hnet.
    unfold deleteEdge, delete_edge_by_id. run_client.
    rewrite Hnet. simpl. rewrite filter_keeps_all.
    + now rewrite with_edges_same.
    + intros r Hr. apply negb_true_iff, String.eqb_neq. now apply Habs.
Qed.

Lemma deleting_absent_entity_succeeds_witness :
  fst (deleteNode "node_gone" (demo_world demo_db2 [])) = Success
  /\ fst (deleteEdge "edge_gone" (demo_world demo_db2 [])) = Success.
Proof.
  split.
  - destruct (deleting_absent_entity_succeeds "node_gone" (demo_world demo_db2 []))
      as [H _].
    apply H.
    + intros r [Hr|[Hr|[]]]; subst r; vm_compute; discriminate.
    + reflexivity.
  - destruct (deleting_absent_entity_succeeds "edge_gone" (demo_world demo_db2 []))
      as [_ H].
    apply H.
    + intros r [Hr|[]]; subst r; vm_compute; discriminate.
    + reflexivity.
Defined.

Lemma pkey_selects_one (l : list node_row) (r : node_row) :
  NoDup (map n_id l) -> In r l -> filter (fun x => n_id x =? n_id r) l = [r].
Proof.
  induction l as [|a l IH]; intros Hnd Hin; [destruct Hin|].
  simpl in Hnd. apply NoDup_cons_iff in Hnd. destruct Hnd as [Hna Hnd].
  simpl. destruct Hin as [->|Hin].
  - rewrite String.eqb_refl. f_equal. apply filter_drops_all.
    intros x Hx. apply String.eqb_neq. intros E. apply Hna. rewrite <- E.
    now apply in_map.
  - replace (n_id a =? n_id r) with false; [now apply IH|].
    symmetry. apply String.eqb_neq. intros E. apply Hna. rewrite E.
    now apply in_map.
Qed.

Lemma pkey_exists (db : database) (r : node_row) :
  In r (nodes db) -> node_id_exists db (n_id r) = true.
Proof.
  intros H. apply existsb_exists. exists r. split; [assumption|].
  apply String.eqb_refl.
Qed.



(** The guard of updateNode tests the truthiness of the supplied kind: an
    empty string is sent to the store as it is. *)
Remark updateNode_sends_an_empty_kind :
  map n_node_type
      (nodes (w_db (snd (updateNode (start_node_id demo_project_id)
                           demo_updates_empty_kind (demo_world demo_db2 [])))))
  = [""; "default"].
Proof. reflexivity. Qed.

(** The guard is also off when the check itself does not get through. *)
Remark updateNode_sends_the_kind_when_the_check_fails :
  map n_node_type
      (nodes (w_db (snd (updateNode (start_node_id demo_project_id) demo_updates
                           (demo_world demo_db2 [Some "TypeError: Failed to fetch"])))))
  = ["tool"; "default"].
Proof. reflexivity. Qed.

(** ** The save procedure *)

Lemma delete_from_nodes_filter (where_ : node_row -> bool) (rows : list node_row) :
  (forall r, In r rows -> where_ r = true -> n_node_type r <> "start") ->
  delete_from_nodes where_ rows = inr (filter (fun r => negb (where_ r)) rows).
Proof.
  induction rows as [|r rows IH]; intros H; simpl; [reflexivity|].
  rewrite IH by (intros x Hx; apply H; now right).
  destruct (where_ r) eqn:E; simpl; [|reflexivity].
  unfold prevent_start_node_deletion.
  replace (n_node_type r =? "start") with false; [reflexivity|].
  symmetry. apply String.eqb_neq. apply H; [now left|assumption].
Qed.

(** The DELETEs of save_flow never trip the deletion trigger, and they keep
    every start node and every node and edge of the other projects. *)
Lemma delete_phase_result (pid : string) (db : database) :
  delete_phase pid db
  = inr (with_edges
           (with_nodes db
              (filter (fun r => negb ((n_project_id r =? pid)
                                      && negb (n_node_type r =? "start")))
                      (nodes db)))
           (filter (fun r => negb (e_project_id r =? pid)) (edges db))).
Proof.
  unfold delete_phase. rewrite delete_from_nodes_filter; [reflexivity|].
  intros r _ Hw. apply andb_true_iff in Hw. destruct Hw as [_ Hw].
  apply negb_true_iff in Hw. now apply String.eqb_neq.
Qed.

Lemma insert_edges_nodes (now : nat) (es : list json_edge) :
  forall db db', insert_edges now es db = inr db' -> nodes db' = nodes db.
Proof.
  induction es as [|v es IH]; intros db db' H; simpl in H.
  - now inversion H.
  - destruct (edge_values now v) as [e|r]; simpl in H; [discriminate|].
    unfold insert_edge in H.
    destruct (edge_id_exists db (e_id r)); simpl in H; [discriminate|].
    destruct (negb (project_exists db (e_project_id r))); simpl in H; [discriminate|].
    apply IH in H. exact H.
Qed.

Lemma node_values_inv (now : nat) (v : json_node) (ex : node_row) :
  node_values now v = inr ex ->
  jn_id v = Some (n_id ex) /\ jn_node_type v = Some (n_node_type ex).
Proof.
  unfold node_values, not_null.
  destruct (jn_id v), (jn_project_id v), (jn_title v), (jn_node_type v),
    (jn_position_x v), (jn_position_y v); simpl; intros H; inversion H; auto.
Qed.

Lemma on_conflict_update_ids (now : nat) (ex : node_row) (rows : list node_row) :
  map n_id (on_conflict_update now ex rows) = map n_id rows.
Proof.
  unfold on_conflict_update. rewrite map_map. apply map_ext. intros r.
  now destruct (n_id r =? n_id ex).
Qed.

Lemma existsb_by_ids (i : string) (l1 l2 : list node_row) :
  map n_id l1 = map n_id l2 ->
  existsb (fun r => n_id r =? i) l1 = existsb (fun r => n_id r =? i) l2.
Proof.
  intros H.
  transitivity (existsb (fun j => j =? i) (map n_id l1)).
  - clear H. induction l1; simpl; congruence.
  - rewrite H. clear H. induction l2; simpl; congruence.
Qed.

(** One step of the command, then the rest, is the whole command. *)
Lemma written_over_conflict (now : nat) (ex : node_row) (rest table : list node_row) :
  ~ In (n_id ex) (map n_id rest) ->
  existsb (fun r => n_id r =? n_id ex) table = true ->
  written_over now rest (on_conflict_update now ex table)
  = written_over now (ex :: rest) table.
Proof.
  intros Hfresh Hex. unfold written_over. f_equal.
  - unfold on_conflict_update. rewrite map_map. apply map_ext. intros r. simpl.
    rewrite (String.eqb_sym (n_id ex) (n_id r)).
    destruct (n_id r =? n_id ex) eqn:E; [|reflexivity].
    simpl. apply String.eqb_eq in E. rewrite find_absent; [reflexivity|].
    intros x Hx. apply String.eqb_neq. intros Hid. apply Hfresh.
    rewrite <- E, <- Hid. now apply in_map.
  - simpl. rewrite Hex. simpl. apply filter_ext. intros a. f_equal.
    apply existsb_by_ids. apply on_conflict_update_ids.
Qed.

Lemma written_over_insert (now : nat) (ex : node_row) (rest table : list node_row) :
  ~ In (n_id ex) (map n_id rest) ->
  existsb (fun r => n_id r =? n_id ex) table = false ->
  written_over now rest (table ++ [ex]) = written_over now (ex :: rest) table.
Proof.
  intros Hfresh Hex. unfold written_over.
  assert (find (fun x => n_id x =? n_id ex) rest = None) as Hfind.
  { apply find_absent. intros x Hx. apply String.eqb_neq. intros Hid.
    apply Hfresh. rewrite <- Hid. now apply in_map. }
  rewrite map_app. simpl. rewrite Hfind, Hex. simpl.
  rewrite <- app_assoc. simpl. f_equal.
  - apply map_ext_in. intros r Hr.
    replace (n_id ex =? n_id r) with false; [reflexivity|].
    symmetry. rewrite String.eqb_sym.
    exact (existsb_false_inv _ _ Hex r Hr).
  - f_equal. apply filter_ext_in. intros a Ha. f_equal.
    rewrite existsb_app. simpl. rewrite orb_false_r.
    replace (n_id ex =? n_id a) with false; [now rewrite orb_false_r|].
    symmetry. apply String.eqb_neq. intros Hid. apply Hfresh.
    rewrite Hid. now apply in_map.
Qed.

Lemma with_nodes_twice (db : database) (a b : list node_row) :
  with_nodes (with_nodes db a) b = with_nodes db b.
Proof. reflexivity. Qed.

(** What a successful INSERT ... ON CONFLICT leaves: every element gave a
    row, no id was proposed twice, and the table is the old one written over
    with those rows. *)
Lemma insert_nodes_on_conflict_result (now : nat) (ns : list json_node) :
  forall (touched : list string) (db db' : database),
    insert_nodes_on_conflict now touched ns db = inr db' ->
    exists proposed,
      Forall2 (fun v ex => node_values now v = inr ex) ns proposed
      /\ NoDup (map n_id proposed)
      /\ (forall ex, In ex proposed -> ~ In (n_id ex) touched)
      /\ db' = with_nodes db (written_over now proposed (nodes db)).
Proof.
  induction ns as [|v ns IH]; intros touched db db' H; simpl in H.
  - inversion H. subst db'. exists []. split; [constructor|].
    split; [constructor|]. split; [intros ex []|].
    unfold written_over. simpl. rewrite app_nil_r, map_id.
    now rewrite with_nodes_same.
  - destruct (node_values now v) as [e|ex] eqn:Hv; simpl in H; [discriminate|].
    unfold upsert_node in H.
    destruct (existsb (String.eqb (n_id ex)) touched) eqn:Ht; simpl in H;
      [discriminate|].
    destruct (negb (tool_exists db (n_tool_id ex))); simpl in H; [discriminate|].
    assert (~ In (n_id ex) touched) as Hnt.
    { intros Hin. pose proof (existsb_false_inv _ _ Ht _ Hin) as C.
      rewrite String.eqb_refl in C. discriminate. }
    unfold node_id_exists in H.
    destruct (existsb (fun r => n_id r =? n_id ex) (nodes db)) eqn:Hex; simpl in H.
    + apply IH in H. destruct H as (proposed & Hf & Hnd & Hdis & ->).
      assert (~ In (n_id ex) (map n_id proposed)) as Hfresh.
      { intros Hin. apply in_map_iff in Hin. destruct Hin as [x [Hx Hin]].
        apply (Hdis x Hin). left. now symmetry. }
      exists (ex :: proposed). split; [now constructor|].
      split; [simpl; now constructor|]. split.
      * intros x [<-|Hx]; [assumption|].
        intros Hin. apply (Hdis x Hx). now right.
      * simpl. rewrite with_nodes_twice. f_equal.
        now apply written_over_conflict.
    + destruct (negb (project_exists db (n_project_id ex))); simpl in H;
        [discriminate|].
      apply IH in H. destruct H as (proposed & Hf & Hnd & Hdis & ->).
      assert (~ In (n_id ex) (map n_id proposed)) as Hfresh.
      { intros Hin. apply in_map_iff in Hin. destruct Hin as [x [Hx Hin]].
        apply (Hdis x Hin). left. now symmetry. }
      exists (ex :: proposed). split; [now constructor|].
      split; [simpl; now constructor|]. split.
      * intros x [<-|Hx]; [assumption|].
        intros Hin. apply (Hdis x Hx). now right.
      * simpl. rewrite with_nodes_twice. f_equal.
        now apply written_over_insert.
Qed.

Lemma save_flow_nodes (now : nat) (pid : string) (ns : list json_node)
    (es : list json_edge) (db db' : database) :
  save_flow now pid ns es db = inr db' ->
  has_start_node ns = true
  /\ exists proposed,
       Forall2 (fun v ex => node_values now v = inr ex) ns proposed
       /\ NoDup (map n_id proposed)
       /\ nodes db'
          = written_over now proposed
              (filter (fun r => negb ((n_project_id r =? pid)
                                      && negb (n_node_type r =? "start")))
                      (nodes db)).
Proof.
  unfold save_flow. destruct (has_start_node ns); simpl; [|discriminate].
  rewrite delete_phase_result. simpl. unfold write_phase.
  intros H. split; [reflexivity|].
  destruct (insert_nodes_on_conflict now [] ns _) as [e|db1] eqn:Hn; simpl in H;
    [discriminate|].
  destruct (insert_edges now es db1) as [e|db2] eqn:He; simpl in H; [discriminate|].
  inversion H. subst db'. simpl.
  apply insert_edges_nodes in He. rewrite He.
  apply insert_nodes_on_conflict_result in Hn.
  destruct Hn as (proposed & Hf & Hnd & _ & ->).
  exists proposed. auto.
Qed.

Lemma proposed_start_row (now : nat) (ns : list json_node) (proposed : list node_row) :
  Forall2 (fun v ex => node_values now v = inr ex) ns proposed ->
  has_start_node ns = true ->
  exists v ex, In v ns /\ In ex proposed /\ node_values now v = inr ex
               /\ n_node_type ex = "start".
Proof.
  induction 1 as [|v ex ns proposed Hv Hf IH]; simpl; [discriminate|].
  intros H. apply orb_true_iff in H. destruct H as [H|H].
  - exists v, ex. repeat split; auto.
    apply node_values_inv in Hv. destruct Hv as [_ Hty].
    unfold json_is_start in H. rewrite Hty in H. now apply String.eqb_eq.
  - destruct (IH H) as (v' & ex' & Hin & Hin' & Hv' & Hs).
    exists v', ex'. auto.
Qed.

Lemma proposed_from (now : nat) (ns : list json_node) (proposed : list node_row) :
  Forall2 (fun v ex => node_values now v = inr ex) ns proposed ->
  forall ex, In ex proposed -> exists v, In v ns /\ node_values now v = inr ex.
Proof.
  induction 1 as [|v ex0 ns proposed Hv Hf IH]; intros ex Hin; [destruct Hin|].
  destruct Hin as [<-|Hin].
  - exists v. split; [now left|assumption].
  - destruct (IH ex Hin) as [v' [Hv' Hn]]. exists v'. split; [now right|assumption].
Qed.

(** *** The key constraints are kept by the writes *)

Lemma pkey_after_filter (f : node_row -> bool) (l : list node_row) :
  NoDup (map n_id l) -> NoDup (map n_id (filter f l)).
Proof.
  induction l as [|a l IH]; simpl; intros H; [constructor|].
  apply NoDup_cons_iff in H. destruct H as [Ha H].
  destruct (f a); simpl; [|now apply IH].
  constructor; [|now apply IH].
  intros Hin. apply Ha. apply in_map_iff in Hin. destruct Hin as [x [Hx Hin]].
  apply filter_In in Hin. apply in_map_iff. exists x. tauto.
Qed.

Lemma pkey_after_append (l : list node_row) (r : node_row) :
  NoDup (map n_id l) ->
  existsb (fun x => n_id x =? n_id r) l = false ->
  NoDup (map n_id (l ++ [r])).
Proof.
  intros Hnd Hex. rewrite map_app. simpl. apply NoDup_app.
  - exact Hnd.
  - constructor; [intros []|constructor].
  - intros a Ha [<-|[]]. apply in_map_iff in Ha. destruct Ha as [x [Hx Hin]].
    pose proof (existsb_false_inv _ _ Hex x Hin) as C. simpl in C.
    rewrite Hx, String.eqb_refl in C. discriminate.
Qed.

Lemma insert_project_keeps_keys (now : nat) (new : project_row) (db db' : database) :
  keys_hold db -> insert_project now new db = inr db' -> keys_hold db'.
Proof.
  intros [Hpk Hfk] H. unfold insert_project in H.
  destruct (project_exists db (p_id new)); [discriminate|].
  unfold create_start_node_for_project, node_id_exists in H. simpl in H.
  destruct (existsb _ (nodes db)) eqn:Hex; [discriminate|].
  inversion H. subst db'. clear H. split.
  - unfold nodes_pkey. simpl. now apply pkey_after_append.
  - intros r Hr. unfold project_exists. simpl. rewrite existsb_app.
    simpl in Hr. apply in_app_or in Hr. destruct Hr as [Hr|[<-|[]]].
    + apply orb_true_iff. left. exact (Hfk r Hr).
    + simpl. rewrite String.eqb_refl. now rewrite orb_true_r.
Qed.

Lemma upsert_node_keeps_keys (now : nat) (touched : list string)
    (ex : node_row) (db db' : database) :
  keys_hold db -> upsert_node now touched ex db = inr db' ->
  keys_hold db' /\ projects db' = projects db.
Proof.
  intros [Hpk Hfk] H. unfold upsert_node in H.
  destruct (existsb _ touched); [discriminate|].
  destruct (negb (tool_exists db (n_tool_id ex))); [discriminate|].
  unfold node_id_exists in H.
  destruct (existsb _ (nodes db)) eqn:Hex.
  - inversion H. subst db'. clear H. split; [split|reflexivity].
    + unfold nodes_pkey. simpl. now rewrite on_conflict_update_ids.
    + intros r Hr. simpl in Hr. unfold on_conflict_update in Hr.
      apply in_map_iff in Hr. destruct Hr as [x [Hx Hin]].
      change (project_exists db (n_project_id r) = true).
      destruct (n_id x =? n_id ex); subst r; simpl; now apply Hfk.
  - destruct (project_exists db (n_project_id ex)) eqn:Hp; [|discriminate].
    inversion H. subst db'. clear H. split; [split|reflexivity].
    + unfold nodes_pkey. simpl. now apply pkey_after_append.
    + intros r Hr. simpl in Hr. apply in_app_or in Hr.
      change (project_exists db (n_project_id r) = true).
      destruct Hr as [Hr|[<-|[]]]; [now apply Hfk|assumption].
Qed.

Lemma insert_nodes_on_conflict_keeps_keys (now : nat) (ns : list json_node) :
  forall (touched : list string) (db db' : database),
    keys_hold db -> insert_nodes_on_conflict now touched ns db = inr db' ->
    keys_hold db' /\ projects db' = projects db.
Proof.
  induction ns as [|v ns IH]; intros touched db db' Hk H; simpl in H.
  - inversion H. now subst.
  - destruct (node_values now v) as [e|ex]; simpl in H; [discriminate|].
    destruct (upsert_node now touched ex db) as [e|db1] eqn:Hu; simpl in H;
      [discriminate|].
    destruct (upsert_node_keeps_keys _ _ _ _ _ Hk Hu) as [Hk1 Hp1].
    destruct (IH _ _ _ Hk1 H) as [Hk' Hp']. split; [assumption|congruence].
Qed.

Lemma insert_edges_projects (now : nat) (es : list json_edge) :
  forall db db', insert_edges now es db = inr db' -> projects db' = projects db.
Proof.
  induction es as [|v es IH]; intros db db' H; simpl in H.
  - now inversion H.
  - destruct (edge_values now v) as [e|r]; simpl in H; [discriminate|].
    unfold insert_edge in H.
    destruct (edge_id_exists db (e_id r)); simpl in H; [discriminate|].
    destruct (negb (project_exists db (e_project_id r))); simpl in H; [discriminate|].
    apply IH in H. exact H.
Qed.

Lemma touch_project_exists (now : nat) (pid i : string) (db : database) :
  project_exists (touch_project now pid db) i = project_exists db i.
Proof.
  unfold project_exists, touch_project. simpl.
  induction (projects db) as [|p l IH]; simpl; [reflexivity|].
  rewrite IH. now destruct (p_id p =? pid).
Qed.

(** A successful save leaves the primary key and the project reference of
    the nodes table in force. *)
Lemma save_flow_keeps_keys (now : nat) (pid : string) (ns : list json_node)
    (es : list json_edge) (db db' : database) :
  keys_hold db -> save_flow now pid ns es db = inr db' -> keys_hold db'.
Proof.
  intros [Hpk Hfk]. unfold save_flow.
  destruct (has_start_node ns); simpl; [|discriminate].
  rewrite delete_phase_result. simpl. unfold write_phase. intros H.
  destruct (insert_nodes_on_conflict now [] ns _) as [e|db1] eqn:Hn; simpl in H;
    [discriminate|].
  destruct (insert_edges now es db1) as [e|db2] eqn:He; simpl in H; [discriminate|].
  inversion H. subst db'. clear H.
  apply insert_nodes_on_conflict_keeps_keys in Hn.
  - destruct Hn as [[Hpk1 Hfk1] Hp1].
    pose proof (insert_edges_nodes _ _ _ _ He) as Hn2.
    pose proof (insert_edges_projects _ _ _ _ He) as Hp2.
    split.
    + unfold nodes_pkey. simpl. now rewrite Hn2.
    + intros r Hr. rewrite touch_project_exists. simpl in Hr. rewrite Hn2 in Hr.
      pose proof (Hfk1 r Hr) as C. unfold project_exists in *. now rewrite Hp2.
  - split.
    + unfold nodes_pkey. simpl. now apply pkey_after_filter.
    + intros r Hr. simpl in Hr. apply filter_In in Hr.
      change (project_exists db (n_project_id r) = true). now apply Hfk.
Qed.

(** C3, as the code has it. Creating a project leaves it with exactly one
    node: its start node, with id start_<project id>, at (50, 50). A
    successful save_flow on a project that has exactly that one start node
    leaves exactly one again, with the same id, whenever the supplied nodes
    of kind start all carry that id. *)
Theorem one_start_node_per_project :
  forall (now : nat) (pid : string),
    (forall (new : project_row) (db db' : database),
        p_id new = pid ->
        nodes_project_fkey db ->
        insert_project now new db = inr db' ->
        nodes_of pid db' = [start_node_row now pid]
        /\ start_nodes_of pid db' = [start_node_row now pid])
    /\ (forall (ns : list json_node) (es : list json_edge)
               (db db' : database) (r0 : node_row),
           start_nodes_of pid db = [r0] ->
           n_id r0 = start_node_id pid ->
           (forall v, In v ns -> jn_node_type v = Some "start" ->
                      jn_id v = Some (start_node_id pid)) ->
           save_flow now pid ns es db = inr db' ->
           exists r', start_nodes_of pid db' = [r']
                      /\ n_id r' = start_node_id pid).
Proof.
  intros now pid. split.
  - intros new db db' <- Hfk H. unfold insert_project in H.
    destruct (project_exists db (p_id new)) eqn:Hp; [discriminate|].
    unfold create_start_node_for_project in H.
    destruct (node_id_exists _ _); [discriminate|].
    inversion H. subst db'. clear H.
    assert (filter (fun r => n_project_id r =? p_id new) (nodes db) = []) as Hnone.
    { apply filter_drops_all. intros r Hr. apply String.eqb_neq. intros E.
      pose proof (Hfk r Hr) as C. rewrite E in C. congruence. }
    split.
    + unfold nodes_of. simpl. rewrite filter_app, Hnone. simpl.
      now rewrite String.eqb_refl.
    + unfold start_nodes_of. simpl. rewrite filter_app. simpl.
      rewrite String.eqb_refl. simpl.
      rewrite filter_drops_all; [reflexivity|].
      intros r Hr. apply andb_false_iff. left.
      apply (existsb_false_inv (fun r => n_project_id r =? p_id new) (nodes db));
        [|assumption].
      apply existsb_absent. intros x Hx. apply String.eqb_neq. intros E.
      pose proof (Hfk x Hx) as C. rewrite E in C. congruence.
  - intros ns es db db' r0 Hone Hid Hns Hsave.
    apply save_flow_nodes in Hsave.
    destruct Hsave as (Hstart & proposed & Hf & Hnd & Hnodes).
    set (S := fun r => (n_project_id r =? pid) && (n_node_type r =? "start")).
    set (keep := fun r => negb ((n_project_id r =? pid)
                                && negb (n_node_type r =? "start"))) in *.
    set (over := fun r => match find (fun ex => n_id ex =? n_id r) proposed with
                          | Some ex => excluded_update now ex r
                          | None => r
                          end).
    assert (In r0 (nodes db) /\ S r0 = true) as [Hr0 HS0].
    { apply filter_In. change (In r0 (start_nodes_of pid db)).
      rewrite Hone. now left. }
    assert (forall ex, In ex proposed -> n_node_type ex = "start" ->
                       n_id ex = start_node_id pid) as Hprop.
    { intros ex Hex Hty. destruct (proposed_from _ _ _ Hf ex Hex) as [v [Hv Hval]].
      apply node_values_inv in Hval. destruct Hval as [Hvid Hvty].
      rewrite Hty in Hvty. pose proof (Hns v Hv Hvty) as E.
      rewrite Hvid in E. now inversion E. }
    assert (n_node_type (over r0) = "start") as Hkind.
    { unfold over. destruct (find _ proposed) as [ex|] eqn:Hfind.
      - apply find_some in Hfind. destruct Hfind as [Hex Hexid].
        apply String.eqb_eq in Hexid.
        destruct (proposed_start_row _ _ _ Hf Hstart) as (v & ex' & _ & Hex' & _ & Hty).
        assert (ex = ex') as ->.
        { apply (NoDup_map_same_key n_id proposed); auto.
          rewrite Hexid, Hid. symmetry. now apply Hprop. }
        exact Hty.
      - apply andb_true_iff in HS0. destruct HS0 as [_ HS0].
        now apply String.eqb_eq. }
    assert (forall r, n_project_id (over r) = n_project_id r) as Hproj.
    { intros r. unfold over. now destruct (find _ proposed). }
    assert (n_id (over r0) = n_id r0) as Hid'.
    { unfold over. now destruct (find _ proposed). }
    exists (over r0). split; [|now rewrite Hid'].
    unfold start_nodes_of. rewrite Hnodes. unfold written_over.
    fold over. fold S. rewrite filter_app.
    rewrite (filter_drops_all S (filter _ proposed)).
    + rewrite app_nil_r, filter_map_swap, filter_filter.
      rewrite (filter_ext_in _ S).
      * change (filter S (nodes db)) with (start_nodes_of pid db).
        now rewrite Hone.
      * intros x Hx. unfold keep, S. rewrite Hproj.
        destruct (n_project_id x =? pid) eqn:Ep; simpl; [|reflexivity].
        rewrite negb_involutive.
        destruct (n_node_type x =? "start") eqn:Et; simpl; [|reflexivity].
        assert (In x (start_nodes_of pid db)) as Hx0.
        { apply filter_In. split; [assumption|]. now rewrite Ep, Et. }
        rewrite Hone in Hx0. destruct Hx0 as [<-|[]].
        rewrite Hkind. reflexivity.
    + intros ex Hex. apply filter_In in Hex. destruct Hex as [Hex Hnew].
      destruct (S ex) eqn:HSex; [|reflexivity].
      apply andb_true_iff in HSex. destruct HSex as [_ Hty].
      apply String.eqb_eq in Hty. pose proof (Hprop ex Hex Hty) as Hexid.
      apply negb_true_iff in Hnew.
      assert (existsb (fun r => n_id r =? n_id ex) (filter keep (nodes db)) = true)
        as C.
      { apply existsb_exists. exists r0. split.
        - apply filter_In. split; [assumption|]. unfold keep.
          apply andb_true_iff in HS0. destruct HS0 as [_ HS0].
          rewrite HS0. simpl. now rewrite andb_false_r.
        - apply String.eqb_eq. congruence. }
      congruence.
Qed.

Lemma one_start_node_per_project_witness :
  nodes_of demo_project_id demo_db = [start_node_row 0 demo_project_id]
  /\ exists db',
       save_flow 2 demo_project_id demo_nodes demo_edges demo_db2 = inr db'
       /\ exists r', start_nodes_of demo_project_id db' = [r']
                     /\ n_id r' = start_node_id demo_project_id.
Proof.
  destruct (one_start_node_per_project 0 demo_project_id) as [Hcreate _].
  destruct (one_start_node_per_project 2 demo_project_id) as [_ Hsave].
  split.
  - apply (Hcreate demo_project empty_db demo_db).
    + reflexivity.
    + intros r [].
    + reflexivity.
  - eexists. split; [vm_compute; reflexivity|].
    apply (Hsave demo_nodes demo_edges demo_db2 _ (start_node_row 0 demo_project_id)).
    + reflexivity.
    + reflexivity.
    + intros v [<-|[<-|[]]]; vm_compute; intros H; [reflexivity|discriminate].
    + reflexivity.
Defined.

(** C3, as the claim has it, fails: the store holds exactly one start node,
    a save that supplies two nodes of kind start succeeds, and the project
    then has two start nodes. *)
Lemma save_flow_admits_a_second_start_node :
  let w := demo_world demo_db2 [] in
  let w' := snd (saveFlow demo_project_id demo_nodes_two_starts [] w) in
  start_nodes_of demo_project_id (w_db w) = [start_node_row 0 demo_project_id]
  /\ fst (saveFlow demo_project_id demo_nodes_two_starts [] w) = Success
  /\ map n_id (start_nodes_of demo_project_id (w_db w'))
     = [start_node_id demo_project_id; n_id demo_n1].
Proof.
  cbv zeta. split; [reflexivity|]. split; reflexivity.
Qed.

(** The DELETEs keep every start node, whatever its project. *)
Lemma delete_phase_keeps_start_nodes (pid : string) (db db1 : database) (r : node_row) :
  delete_phase pid db = inr db1 ->
  In r (nodes db) -> n_node_type r = "start" -> In r (nodes db1).
Proof.
  rewrite delete_phase_result. intros H Hin Hty. inversion H. simpl.
  apply filter_In. split; [assumption|].
  rewrite Hty. simpl. now rewrite andb_false_r.
Qed.

(** C4 at a failing input: the store holds the start node of the project and
    one default node; a save that supplies the two with their kinds swapped
    succeeds, and the row of the start node is then of kind "default". *)
Lemma save_flow_overwrites_the_start_kind :
  let w := demo_world demo_db2 [] in
  let w' := snd (saveFlow demo_project_id demo_nodes_kind_swapped [] w) in
  map (fun r => (n_id r, n_node_type r)) (nodes (w_db w))
  = [(start_node_id demo_project_id, "start"); (n_id demo_n1, "default")]
  /\ fst (saveFlow demo_project_id demo_nodes_kind_swapped [] w) = Success
  /\ map (fun r => (n_id r, n_node_type r)) (nodes (w_db w'))
     = [(start_node_id demo_project_id, "default"); (n_id demo_n1, "start")].
Proof.
  cbv zeta. split; [reflexivity|]. split; reflexivity.
Qed.




(** * Further properties of the services, the store and the pages *)

(** ** Deleting and updating single nodes *)

Lemma delete_from_nodes_raises (where_ : node_row -> bool) (rows : list node_row)
    (r : node_row) :
  In r rows -> where_ r = true -> n_node_type r = "start" ->
  delete_from_nodes where_ rows = inl "Cannot delete start node".
Proof.
  induction rows as [|a rows IH]; intros Hin Hw Hs; [destruct Hin|].
  simpl. destruct (where_ a) eqn:Ea.
  - unfold prevent_start_node_deletion.
    destruct (n_node_type a =? "start") eqn:Es; simpl; [reflexivity|].
    destruct Hin as [->|Hin].
    + rewrite Hs in Es. discriminate.
    + now apply IH.
  - destruct Hin as [->|Hin]; [congruence|].
    rewrite IH by assumption. reflexivity.
Qed.

(** X1. deleteNode never deletes a start node. When the check reaches the
    store the service refuses by itself and sends nothing else; when the
    check does not get through, the DELETE is sent and the deletion trigger
    refuses it. Either way the caller gets an error and the store is as it
    was. *)
Theorem deleteNode_never_deletes_a_start_node :
  forall (w : world) (r : node_row),
    nodes_pkey (w_db w) ->
    In r (nodes (w_db w)) ->
    n_node_type r = "start" ->
    w_db (snd (deleteNode (n_id r) w)) = w_db w
    /\ (exists e, fst (deleteNode (n_id r) w) = Error e)
    /\ (reaches_store 0 w ->
        fst (deleteNode (n_id r) w) = Error "Cannot delete start node"
        /\ w_requests (snd (deleteNode (n_id r) w))
           = w_requests w ++ [select_node_type (n_id r)]).
Proof.
  intros w r Hpk Hin Hs.
  pose proof (pkey_selects_one _ _ Hpk Hin) as Hsel.
  assert (delete_from_nodes (fun x => n_id x =? n_id r) (nodes (w_db w))
          = inl "Cannot delete start node") as Hdel.
  { apply (delete_from_nodes_raises _ _ r); auto. apply String.eqb_refl. }
  unfold reaches_store.
  unfold deleteNode, isStartNode, select_node_type_by_id, delete_node_by_id.
  run_client.
  destruct (w_net w) as [|[m|] net]; simpl.
  - rewrite Hsel. simpl. rewrite Hs. simpl. eauto.
  - destruct net as [|[m'|] net']; simpl.
    + rewrite Hdel. simpl. split; [reflexivity|]. split; [eauto|discriminate].
    + split; [reflexivity|]. split; [eauto|discriminate].
    + rewrite Hdel. simpl. split; [reflexivity|]. split; [eauto|discriminate].
  - rewrite Hsel. simpl. rewrite Hs. simpl. eauto.
Qed.

Lemma deleteNode_never_deletes_a_start_node_witness :
  fst (deleteNode (start_node_id demo_project_id) (demo_world demo_db2 []))
  = Error "Cannot delete start node".
Proof.
  destruct (deleteNode_never_deletes_a_start_node (demo_world demo_db2 [])
              (start_node_row 0 demo_project_id)) as (_ & _ & H).
  - unfold nodes_pkey. simpl.
    repeat (constructor; [simpl; intuition discriminate|]). constructor.
  - simpl. auto.
  - reflexivity.
  - destruct H as [H _]; [reflexivity|]. exact H.
Defined.

Lemma pkey_filter_out (l : list node_row) (r : node_row) :
  NoDup (map n_id l) -> In r l ->
  forall x, In x (filter (fun y => negb (n_id y =? n_id r)) l) <-> In x l /\ x <> r.
Proof.
  intros Hnd Hin x. rewrite filter_In. split; intros [Hx Hne]; split; auto.
  - intros ->. rewrite String.eqb_refl in Hne. discriminate.
  - apply negb_true_iff, String.eqb_neq. intros E. apply Hne.
    now apply (NoDup_map_same_key n_id l).
Qed.

(** X2. Deleting a stored node that is not a start node, with both round
    trips reaching the store, succeeds and removes that row and no other.
    The edges table is not touched: edges that start or end at the node stay
    in the store. *)
Theorem deleteNode_removes_the_node_and_keeps_its_edges :
  forall (w : world) (r : node_row),
    nodes_pkey (w_db w) ->
    In r (nodes (w_db w)) ->
    n_node_type r <> "start" ->
    reaches_store 0 w /\ reaches_store 1 w ->
    let db' := w_db (snd (deleteNode (n_id r) w)) in
    fst (deleteNode (n_id r) w) = Success
    /\ (forall x, In x (nodes db') <-> In x (nodes (w_db w)) /\ x <> r)
    /\ edges db' = edges (w_db w)
    /\ projects db' = projects (w_db w).
Proof.
  intros w r Hpk Hin Hs [Hn0 Hn1] db'.
  apply first_request_reaches in Hn0. apply second_request_reaches in Hn1.
  pose proof (pkey_selects_one _ _ Hpk Hin) as Hsel.
  assert (delete_from_nodes (fun x => n_id x =? n_id r) (nodes (w_db w))
          = inr (filter (fun x => negb (n_id x =? n_id r)) (nodes (w_db w))))
    as Hdel.
  { apply delete_from_nodes_filter. intros x Hx Hid.
    assert (In x (filter (fun y => n_id y =? n_id r) (nodes (w_db w)))) as Hx'
      by (apply filter_In; auto).
    rewrite Hsel in Hx'. destruct Hx' as [<-|[]]. exact Hs. }
  assert (fst (deleteNode (n_id r) w) = Success
          /\ w_db (snd (deleteNode (n_id r) w))
             = with_nodes (w_db w)
                 (filter (fun x => negb (n_id x =? n_id r)) (nodes (w_db w))))
    as [Hres Hdb].
  { unfold deleteNode, isStartNode, select_node_type_by_id, delete_node_by_id.
    run_client. rewrite Hn0. simpl. rewrite Hsel. simpl.
    replace (n_node_type r =? "start") with false
      by (symmetry; now apply String.eqb_neq).
    simpl. rewrite Hn1, Hdel. simpl. auto. }
  subst db'. rewrite Hdb. simpl. split; [exact Hres|].
  split; [now apply pkey_filter_out|auto].
Qed.

Lemma deleteNode_removes_the_node_and_keeps_its_edges_witness :
  let db' := w_db (snd (deleteNode (n_id demo_n1) (demo_world demo_db2 []))) in
  nodes db' = [start_node_row 0 demo_project_id] /\ edges db' = [demo_e1].
Proof.
  cbv zeta.
  destruct (deleteNode_removes_the_node_and_keeps_its_edges
              (demo_world demo_db2 []) demo_n1) as (_ & _ & He & _).
  - unfold nodes_pkey. simpl.
    repeat (constructor; [simpl; intuition discriminate|]). constructor.
  - simpl. auto.
  - discriminate.
  - split; reflexivity.
  - split; [reflexivity|exact He].
Defined.

(** X3. The guard of updateNode only holds back start nodes: on a stored
    node of another kind, with both round trips reaching the store, the
    supplied node_type is written with the other supplied columns, and the
    updated row is returned. *)
Theorem updateNode_changes_the_kind_of_other_nodes :
  forall (u : node_updates) (w : world) (r : node_row) (k : string),
    nodes_pkey (w_db w) ->
    In r (nodes (w_db w)) ->
    n_node_type r <> "start" ->
    u_node_type u = Some k ->
    truthy k = true ->
    tool_exists (w_db w) (supplied (u_tool_id u) None) = true ->
    reaches_store 0 w /\ reaches_store 1 w ->
    fst (updateNode (n_id r) u w) = Data (apply_updates u r)
    /\ n_node_type (apply_updates u r) = k
    /\ nodes (w_db (snd (updateNode (n_id r) u w)))
       = map (fun x => if n_id x =? n_id r then apply_updates u r else x)
             (nodes (w_db w)).
Proof.
  intros u w r k Hpk Hin Hs Hk Htruthy Htool [Hn0 Hn1].
  apply first_request_reaches in Hn0. apply second_request_reaches in Hn1.
  pose proof (pkey_selects_one _ _ Hpk Hin) as Hsel.
  assert (map (fun x => if n_id x =? n_id r then apply_updates u x else x)
              (nodes (w_db w))
          = map (fun x => if n_id x =? n_id r then apply_updates u r else x)
                (nodes (w_db w))) as Hmap.
  { apply map_ext_in. intros x Hx. destruct (n_id x =? n_id r) eqn:E; [|reflexivity].
    assert (In x (filter (fun y => n_id y =? n_id r) (nodes (w_db w)))) as Hx'
      by (apply filter_In; auto).
    rewrite Hsel in Hx'. destruct Hx' as [<-|[]]. reflexivity. }
  assert (filter (fun x => n_id x =? n_id r)
            (map (fun x => if n_id x =? n_id r then apply_updates u r else x)
                 (nodes (w_db w)))
          = [apply_updates u r]) as Hret.
  { rewrite filter_map_swap.
    rewrite (filter_ext_in _ (fun x => n_id x =? n_id r)).
    - rewrite Hsel. simpl. now rewrite String.eqb_refl.
    - intros x Hx. destruct (n_id x =? n_id r) eqn:E; [|exact E].
      apply String.eqb_refl. }
  assert (updateNode (n_id r) u w
          = (Data (apply_updates u r),
             {| w_db := with_nodes (w_db w)
                          (map (fun x => if n_id x =? n_id r
                                         then apply_updates u r else x)
                               (nodes (w_db w)));
                w_clock := S (S (w_clock w));
                w_net := tl (tl (w_net w));
                w_requests := (w_requests w ++ [select_node_type (n_id r)])
                              ++ [update_nodes (n_id r) u];
                w_console := w_console w |})) as Hrun.
  { unfold updateNode, isStartNode, select_node_type_by_id, update_node_by_id.
    run_client. rewrite Hk, Htruthy, Hn0. simpl. rewrite Hsel. simpl.
    replace (n_node_type r =? "start") with false
      by (symmetry; now apply String.eqb_neq).
    simpl. rewrite Hn1. rewrite (pkey_exists _ _ Hin). rewrite Htool. simpl.
    rewrite Hmap, Hret. reflexivity. }
  rewrite Hrun. simpl. split; [reflexivity|]. split; [|reflexivity].
  unfold apply_updates. simpl. now rewrite Hk.
Qed.

Lemma updateNode_changes_the_kind_of_other_nodes_witness :
  map n_node_type
      (nodes (w_db (snd (updateNode (n_id demo_n1) demo_kind_update
                           (demo_world demo_db2 [])))))
  = ["start"; "tool"].
Proof.
  destruct (updateNode_changes_the_kind_of_other_nodes demo_kind_update
              (demo_world demo_db2 []) demo_n1 "tool") as (_ & _ & H).
  - unfold nodes_pkey. simpl.
    repeat (constructor; [simpl; intuition discriminate|]). constructor.
  - simpl. auto.
  - discriminate.
  - reflexivity.
  - reflexivity.
  - reflexivity.
  - split; reflexivity.
  - rewrite H. reflexivity.
Defined.

Lemma isStartNode_store (i : string) (w : world) :
  w_db (snd (isStartNode i w)) = w_db w.
Proof.
  unfold isStartNode, select_node_type_by_id. run_client.
  destruct (hd None (w_net w)); simpl; [reflexivity|].
  destruct (single _) as [e|t]; reflexivity.
Qed.

Lemma isStartNode_absent (i : string) (w : world) :
  (forall r, In r (nodes (w_db w)) -> n_id r <> i) ->
  fst (isStartNode i w) = false.
Proof.
  intros Habs. unfold isStartNode, select_node_type_by_id. run_client.
  destruct (hd None (w_net w)); simpl; [reflexivity|].
  rewrite filter_drops_all; [reflexivity|].
  intros r Hr. apply String.eqb_neq. now apply Habs.
Qed.

Lemma update_request_absent (i : string) (u : node_updates) (w : world) :
  (forall r, In r (nodes (w_db w)) -> n_id r <> i) ->
  (exists e, fst (supabase (update_nodes i u)
                    (fun _ db => update_node_by_id i u db) w) = inl e)
  /\ w_db (snd (supabase (update_nodes i u)
                   (fun _ db => update_node_by_id i u db) w)) = w_db w.
Proof.
  intros Habs. unfold update_node_by_id. run_client.
  destruct (hd None (w_net w)); simpl; [eauto|].
  replace (node_id_exists (w_db w) i) with false.
  - simpl. rewrite filter_drops_all; simpl; [eauto|].
    intros r Hr. apply in_map_iff in Hr. destruct Hr as [x [<- Hx]].
    replace (n_id x =? i) with false
      by (symmetry; apply String.eqb_neq; now apply Habs).
    apply String.eqb_neq. now apply Habs.
  - symmetry. apply existsb_absent. intros r Hr.
    apply String.eqb_neq. now apply Habs.
Qed.

(** X4. updateNode on an id that is not stored answers an error and leaves
    the store as it was, whatever the update carries and whatever the
    transport does. *)
Theorem updateNode_of_an_absent_node_is_an_error :
  forall (i : string) (u : node_updates) (w : world),
    (forall r, In r (nodes (w_db w)) -> n_id r <> i) ->
    (exists e, fst (updateNode i u w) = Error e)
    /\ w_db (snd (updateNode i u w)) = w_db w.
Proof.
  intros i u w Habs.
  pose (send := fun v : node_updates =>
                  (r <- supabase (update_nodes i v)
                          (fun _ db => update_node_by_id i v db) ;
                   match r with
                   | inl error => ret (handleSupabaseError error)
                   | inr data => ret (Data data)
                   end) : M (result node_row)).
  assert (forall v w', w_db w' = w_db w ->
            (exists e, fst (send v w') = Error e)
            /\ w_db (snd (send v w')) = w_db w) as Hstep.
  { intros v w' Hw'.
    assert (forall r, In r (nodes (w_db w')) -> n_id r <> i) as Habs'
      by (rewrite Hw'; exact Habs).
    destruct (update_request_absent i v w' Habs') as [[e He] Hdb].
    unfold send, bind.
    destruct (supabase (update_nodes i v) _ w') as [r w''].
    simpl in *. subst r. simpl. rewrite Hdb. eauto. }
  change (updateNode i u w)
    with ((guarded <- (match u_node_type u with
                       | Some t => if truthy t then isStartNode i else ret false
                       | None => ret false
                       end) ;
           send (if guarded then delete_node_type u else u)) w).
  clearbody send.
  destruct (u_node_type u) as [t|]; [destruct (truthy t)|]; unfold bind.
  - pose proof (isStartNode_absent i w Habs) as Hb.
    pose proof (isStartNode_store i w) as Hw.
    destruct (isStartNode i w) as [b w']. simpl in Hb, Hw. subst b.
    exact (Hstep u w' Hw).
  - exact (Hstep u w eq_refl).
  - exact (Hstep u w eq_refl).
Qed.

Lemma updateNode_of_an_absent_node_is_an_error_witness :
  w_db (snd (updateNode "node_gone" demo_updates (demo_world demo_db2 [])))
  = demo_db2.
Proof.
  destruct (updateNode_of_an_absent_node_is_an_error "node_gone" demo_updates
              (demo_world demo_db2 [])) as [_ H].
  - intros r [Hr|[Hr|[]]]; subst r; vm_compute; discriminate.
  - exact H.
Defined.

(** ** Deleting projects and tools *)

Lemma map_replace_Forall2_with {A : Type} (sel : A -> bool) (g : A -> A)
    (l : list A) :
  Forall2 (fun old new_ => new_ = if sel old then g old else old)
          l (map (fun x => if sel x then g x else x) l).
Proof.
  induction l as [|a l IH]; simpl; constructor; auto.
Qed.

Lemma delete_project_blocked (i : string) (db : database) (r : node_row) :
  project_exists db i = true ->
  In r (nodes db) -> n_project_id r = i -> n_node_type r = "start" ->
  delete_project_by_id i db = inl "Cannot delete start node".
Proof.
  intros Hp Hin Hpr Hs. unfold delete_project_by_id. rewrite Hp.
  rewrite (delete_from_nodes_raises _ _ r); auto.
  now apply String.eqb_eq.
Qed.

Lemma createProject_stored (id name : string) (description : option string)
    (w : world) (p : project_row) :
  fst (createProject id name description w) = Data p ->
  project_exists (w_db (snd (createProject id name description w))) id = true
  /\ In (start_node_row (w_clock w) id)
        (nodes (w_db (snd (createProject id name description w))))
  /\ w_net (snd (createProject id name description w)) = tl (w_net w).
Proof.
  unfold createProject, insert_project_row, insert_project,
    create_start_node_for_project, supabase_table.
  run_client.
  destruct (hd None (w_net w)); simpl; [discriminate|].
  destruct (project_exists (w_db w) id); simpl; [discriminate|].
  destruct (node_id_exists _ _); simpl; [discriminate|].
  intros _. split; [|split; [|reflexivity]].
  - unfold project_exists. simpl. rewrite existsb_app. simpl.
    rewrite String.eqb_refl. now rewrite orb_true_r.
  - apply in_or_app. right. now left.
Qed.

(** X5. A project that has a start node cannot be deleted: the cascade of
    DELETE FROM projects reaches the start node, the deletion trigger of
    nodes raises, and the whole statement is undone. Since creating a
    project creates its start node, deleteProject on a project made by
    createProject answers "Cannot delete start node" and leaves the store
    as it was. *)
Theorem deleteProject_is_blocked_by_the_start_node :
  forall (id name : string) (description : option string) (w : world),
    (forall (r : node_row),
        project_exists (w_db w) id = true ->
        In r (nodes (w_db w)) -> n_project_id r = id ->
        n_node_type r = "start" ->
        reaches_store 0 w ->
        fst (deleteProject id w) = Error "Cannot delete start node"
        /\ w_db (snd (deleteProject id w)) = w_db w)
    /\ (forall (p : project_row),
           fst (createProject id name description w) = Data p ->
           reaches_store 1 w ->
           let w1 := snd (createProject id name description w) in
           fst (deleteProject id w1) = Error "Cannot delete start node"
           /\ w_db (snd (deleteProject id w1)) = w_db w1).
Proof.
  intros id name description w.
  assert (forall (w0 : world) (r : node_row),
             project_exists (w_db w0) id = true ->
             In r (nodes (w_db w0)) -> n_project_id r = id ->
             n_node_type r = "start" ->
             hd None (w_net w0) = None ->
             fst (deleteProject id w0) = Error "Cannot delete start node"
             /\ w_db (snd (deleteProject id w0)) = w_db w0) as Hgen.
  { intros w0 r Hp Hin Hpr Hs Hnet.
    unfold deleteProject, supabase_table. run_client. rewrite Hnet.
    rewrite (delete_project_blocked id (w_db w0) r); auto. }
  split.
  - intros r Hp Hin Hpr Hs Hnet. apply first_request_reaches in Hnet. eauto.
  - intros p Hcreated Hnet w1.
    destruct (createProject_stored _ _ _ _ _ Hcreated) as (Hp & Hin & Hnet1).
    apply (Hgen w1 (start_node_row (w_clock w) id)); auto.
    subst w1. rewrite Hnet1. now apply second_request_reaches.
Qed.

Lemma deleteProject_is_blocked_by_the_start_node_witness :
  fst (deleteProject demo_project_id (demo_world demo_db2 []))
  = Error "Cannot delete start node"
  /\ fst (deleteProject demo_project_id
            (snd (createProject demo_project_id "P" None (demo_world empty_db []))))
     = Error "Cannot delete start node".
Proof.
  destruct (deleteProject_is_blocked_by_the_start_node demo_project_id "P" None
              (demo_world demo_db2 [])) as [H _].
  destruct (deleteProject_is_blocked_by_the_start_node demo_project_id "P" None
              (demo_world empty_db [])) as [_ H'].
  split.
  - apply (H (start_node_row 0 demo_project_id)); try reflexivity.
    simpl. auto.
  - eapply H'; reflexivity.
Defined.



(** X7. Deleting a tool clears the reference of every node that used it and
    changes nothing else in a node: afterwards no node refers to the deleted
    tool, the nodes are the old ones in the old order, and if every tool
    reference was valid before, every one is valid after. *)
Theorem delete_tool_clears_the_references :
  forall (i : string) (db db' : database),
    delete_tool_by_id i db = inr (db', tt) ->
    (forall r, In r (nodes db') -> n_tool_id r <> Some i)
    /\ Forall2 (fun old new_ => new_ = if references_tool i old
                                      then clear_tool old else old)
               (nodes db) (nodes db')
    /\ tool_exists db' (Some i) = false
    /\ (nodes_tool_fkey db -> nodes_tool_fkey db').
Proof.
  intros i db db' H. unfold delete_tool_by_id in H. inversion H. clear H.
  simpl. split; [|split; [|split]].
  - intros r Hr. apply in_map_iff in Hr. destruct Hr as [x [<- Hx]].
    unfold references_tool. destruct (n_tool_id x) as [j|] eqn:Ej.
    + destruct (j =? i) eqn:E; simpl; [discriminate|].
      rewrite Ej. intros C. inversion C. subst j.
      rewrite String.eqb_refl in E. discriminate.
    + rewrite Ej. discriminate.
  - apply (map_replace_Forall2_with (references_tool i) clear_tool).
  - apply existsb_absent. intros t Ht. apply filter_In in Ht.
    destruct Ht as [_ Ht]. now apply negb_true_iff in Ht.
  - intros Hfk r Hr. simpl in Hr. apply in_map_iff in Hr.
    destruct Hr as [x [<- Hx]]. pose proof (Hfk x Hx) as Hx'.
    unfold references_tool. destruct (n_tool_id x) as [j|] eqn:Ej.
    + destruct (j =? i) eqn:E; simpl; [reflexivity|]. rewrite Ej.
      unfold tool_exists in *. simpl. apply existsb_exists in Hx'.
      destruct Hx' as [t [Ht Hid]]. apply existsb_exists. exists t.
      split; [|assumption]. apply filter_In. split; [assumption|].
      apply String.eqb_eq in Hid. subst j. now rewrite E.
    + now rewrite Ej.
Qed.

Lemma delete_tool_clears_the_references_witness :
  exists db',
    delete_tool_by_id (t_id demo_tool) demo_db3 = inr (db', tt)
    /\ map n_tool_id (nodes db') = [None; None]
    /\ nodes_tool_fkey db'.
Proof.
  eexists. split; [reflexivity|]. split; [reflexivity|].
  eapply (delete_tool_clears_the_references (t_id demo_tool) demo_db3).
  - reflexivity.
  - intros r [<-|[<-|[]]]; reflexivity.
Defined.

(** ** What a successful save leaves in the store *)

Lemma proposed_contains (now : nat) (ns : list json_node) (proposed : list node_row) :
  Forall2 (fun v ex => node_values now v = inr ex) ns proposed ->
  forall v ex, In v ns -> node_values now v = inr ex -> In ex proposed.
Proof.
  induction 1 as [|v0 ex0 ns proposed Hv Hf IH]; intros v ex Hin Hval;
    [destruct Hin|].
  destruct Hin as [->|Hin].
  - left. congruence.
  - right. now apply (IH v).
Qed.

Lemma find_by_key (proposed : list node_row) (ex : node_row) :
  NoDup (map n_id proposed) -> In ex proposed ->
  find (fun e => n_id e =? n_id ex) proposed = Some ex.
Proof.
  intros Hnd Hin.
  destruct (find (fun e => n_id e =? n_id ex) proposed) as [e|] eqn:E.
  - apply find_some in E. destruct E as [He Hid]. apply String.eqb_eq in Hid.
    f_equal. now apply (NoDup_map_same_key n_id proposed).
  - pose proof (find_none _ _ E ex Hin) as C. simpl in C.
    rewrite String.eqb_refl in C. discriminate.
Qed.

Lemma written_over_overwrites (now : nat) (proposed table : list node_row)
    (ex x : node_row) :
  NoDup (map n_id proposed) -> In ex proposed -> In x table ->
  n_id x = n_id ex ->
  In (excluded_update now ex x) (written_over now proposed table).
Proof.
  intros Hnd Hex Hx Hid. unfold written_over. apply in_or_app. left.
  apply in_map_iff. exists x. split; [|assumption].
  rewrite Hid. now rewrite (find_by_key _ _ Hnd Hex).
Qed.

Lemma written_over_inserts (now : nat) (proposed table : list node_row)
    (ex : node_row) :
  In ex proposed -> (forall x, In x table -> n_id x <> n_id ex) ->
  In ex (written_over now proposed table).
Proof.
  intros Hex Hno. unfold written_over. apply in_or_app. right.
  apply filter_In. split; [assumption|]. apply negb_true_iff.
  apply existsb_absent. intros x Hx. apply String.eqb_neq. now apply Hno.
Qed.

(** X8. After a successful save_flow every supplied node is in the nodes
    table under its id, with the supplied title, prompt, kind, tool and
    position and with the time of the save as its modification time. *)
Theorem save_flow_stores_every_supplied_node :
  forall (now : nat) (pid : string) (ns : list json_node) (es : list json_edge)
         (db db' : database) (v : json_node) (ex : node_row),
    save_flow now pid ns es db = inr db' ->
    In v ns ->
    node_values now v = inr ex ->
    exists r,
      In r (nodes db')
      /\ n_id r = n_id ex
      /\ n_title r = n_title ex
      /\ n_prompt r = n_prompt ex
      /\ n_node_type r = n_node_type ex
      /\ n_tool_id r = n_tool_id ex
      /\ n_position_x r = n_position_x ex
      /\ n_position_y r = n_position_y ex
      /\ n_updated_at r = now.
Proof.
  intros now pid ns es db db' v ex Hsave Hv Hval.
  apply save_flow_nodes in Hsave.
  destruct Hsave as (_ & proposed & Hf & Hnd & Hnodes).
  pose proof (proposed_contains _ _ _ Hf v ex Hv Hval) as Hex.
  rewrite Hnodes.
  set (table := filter _ (nodes db)).
  destruct (existsb (fun x => n_id x =? n_id ex) table) eqn:E.
  - apply existsb_exists in E. destruct E as [x [Hx Hid]].
    apply String.eqb_eq in Hid.
    exists (excluded_update now ex x).
    split; [now apply written_over_overwrites|]. simpl. repeat split; auto.
  - exists ex. split.
    + apply written_over_inserts; [assumption|].
      intros x Hx. apply String.eqb_neq. exact (existsb_false_inv _ _ E x Hx).
    + repeat split; auto.
      unfold node_values, not_null in Hval.
      destruct (jn_id v), (jn_project_id v), (jn_title v), (jn_node_type v),
        (jn_position_x v), (jn_position_y v); simpl in Hval; inversion Hval.
      reflexivity.
Qed.

Lemma save_flow_stores_every_supplied_node_witness :
  exists db' r,
    save_flow 2 demo_project_id demo_nodes demo_edges demo_db2 = inr db'
    /\ In r (nodes db')
    /\ n_id r = n_id demo_n1 /\ n_title r = "Greeting" /\ n_updated_at r = 2.
Proof.
  assert (exists db', save_flow 2 demo_project_id demo_nodes demo_edges demo_db2
                      = inr db') as [db' Hsave]
    by (eexists; vm_compute; reflexivity).
  destruct (save_flow_stores_every_supplied_node 2 demo_project_id demo_nodes
              demo_edges demo_db2 db'
              (formattedNode demo_project_id (updatedNode demo_n1 tool_null))
              {| n_id := n_id demo_n1; n_project_id := demo_project_id;
                 n_title := "Greeting"; n_prompt := Some "Say hello";
                 n_node_type := "default"; n_tool_id := None;
                 n_position_x := 320; n_position_y := 180;
                 n_created_at := 2; n_updated_at := 2 |})
    as (r & Hr & Hid & Ht & _ & _ & _ & _ & _ & Hu).
  - exact Hsave.
  - right. left. reflexivity.
  - reflexivity.
  - exists db', r. auto.
Defined.

(** X9. After a successful save_flow the saved project holds nothing but
    what was supplied and its old start nodes: every node of the project in
    the store has the id of a supplied node, or is a row of kind start that
    was there before and was left as it was. The other nodes the project
    had are gone. *)
Theorem save_flow_drops_what_was_not_supplied :
  forall (now : nat) (pid : string) (ns : list json_node) (es : list json_edge)
         (db db' : database) (r : node_row),
    save_flow now pid ns es db = inr db' ->
    In r (nodes db') ->
    n_project_id r = pid ->
    (exists v, In v ns /\ jn_id v = Some (n_id r))
    \/ (In r (nodes db) /\ n_node_type r = "start").
Proof.
  intros now pid ns es db db' r Hsave Hr Hpid.
  apply save_flow_nodes in Hsave.
  destruct Hsave as (_ & proposed & Hf & Hnd & Hnodes).
  assert (forall ex, In ex proposed ->
                     exists v, In v ns /\ jn_id v = Some (n_id ex)) as Hsup.
  { intros ex Hex. destruct (proposed_from _ _ _ Hf ex Hex) as [v [Hv Hval]].
    exists v. split; [assumption|]. now apply node_values_inv in Hval. }
  rewrite Hnodes in Hr. unfold written_over in Hr. apply in_app_or in Hr.
  destruct Hr as [Hr|Hr].
  - apply in_map_iff in Hr. destruct Hr as [x [Hx Hin]].
    apply filter_In in Hin. destruct Hin as [Hin Hkeep].
    destruct (find (fun ex => n_id ex =? n_id x) proposed) as [ex|] eqn:E.
    + left. apply find_some in E. destruct E as [Hex Hid].
      apply String.eqb_eq in Hid. subst r. simpl. rewrite <- Hid. now apply Hsup.
    + right. subst r. split; [assumption|].
      rewrite Hpid, String.eqb_refl in Hkeep. simpl in Hkeep.
      rewrite negb_involutive in Hkeep. now apply String.eqb_eq.
  - left. apply filter_In in Hr. destruct Hr as [Hr _]. now apply Hsup.
Qed.

Lemma save_flow_drops_what_was_not_supplied_witness :
  let r := excluded_update 2 (start_node_row 2 demo_project_id)
             (start_node_row 0 demo_project_id) in
  (exists v, In v demo_nodes_start_only /\ jn_id v = Some (n_id r))
  \/ (In r (nodes demo_db2) /\ n_node_type r = "start").
Proof.
  cbv zeta.
  eapply (save_flow_drops_what_was_not_supplied 2 demo_project_id
            demo_nodes_start_only [] demo_db2).
  - vm_compute. reflexivity.
  - vm_compute. auto.
  - reflexivity.
Defined.

Lemma insert_edges_result (now : nat) (es : list json_edge) :
  forall db db',
    insert_edges now es db = inr db' ->
    exists rows,
      Forall2 (fun v r => edge_values now v = inr r) es rows
      /\ edges db' = edges db ++ rows.
Proof.
  induction es as [|v es IH]; intros db db' H; simpl in H.
  - inversion H. exists []. split; [constructor|]. now rewrite app_nil_r.
  - destruct (edge_values now v) as [e|r] eqn:Hv; simpl in H; [discriminate|].
    unfold insert_edge in H.
    destruct (edge_id_exists db (e_id r)); simpl in H; [discriminate|].
    destruct (negb (project_exists db (e_project_id r))); simpl in H; [discriminate|].
    apply IH in H. destruct H as (rows & Hf & He). simpl in He.
    exists (r :: rows). split; [now constructor|].
    rewrite He, <- app_assoc. reflexivity.
Qed.

(** X10. A successful save_flow replaces the edges of the project: the edges
    table is then the old table without the edges of the saved project,
    followed by one row for each supplied edge, in the order supplied. The
    edges of the other projects are not touched. *)
Theorem save_flow_replaces_the_edges :
  forall (now : nat) (pid : string) (ns : list json_node) (es : list json_edge)
         (db db' : database),
    save_flow now pid ns es db = inr db' ->
    exists rows,
      Forall2 (fun v r => edge_values now v = inr r) es rows
      /\ edges db'
         = filter (fun r => negb (e_project_id r =? pid)) (edges db) ++ rows
      /\ ((forall v, In v es -> je_project_id v = Some pid) ->
          edges_of pid db' = rows).
Proof.
  intros now pid ns es db db'. unfold save_flow.
  destruct (has_start_node ns); simpl; [|discriminate].
  rewrite delete_phase_result. simpl. unfold write_phase. intros H.
  destruct (insert_nodes_on_conflict now [] ns _) as [e|db1] eqn:Hn; simpl in H;
    [discriminate|].
  destruct (insert_edges now es db1) as [e|db2] eqn:He; simpl in H; [discriminate|].
  inversion H. subst db'. clear H. simpl.
  apply insert_nodes_on_conflict_result in Hn.
  destruct Hn as (proposed & _ & _ & _ & ->).
  apply insert_edges_result in He. destruct He as (rows & Hf & He).
  simpl in He. exists rows. split; [assumption|]. split; [assumption|].
  intros Hall. unfold edges_of. simpl. rewrite He, filter_app.
  rewrite filter_filter, filter_drops_all
    by (intros r _; now destruct (e_project_id r =? pid)).
  simpl. apply filter_keeps_all. intros r Hr.
  clear He. induction Hf as [|v r0 es rows Hv Hf IH]; [destruct Hr|].
  destruct Hr as [->|Hr].
  - pose proof (Hall v (or_introl eq_refl)) as Hp.
    unfold edge_values, not_null in Hv. rewrite Hp in Hv.
    destruct (je_id v), (je_source_id v), (je_target_id v); simpl in Hv;
      inversion Hv. simpl. apply String.eqb_refl.
  - apply IH; [|assumption]. intros v' Hv'. apply Hall. now right.
Qed.

Lemma save_flow_replaces_the_edges_witness :
  exists db',
    save_flow 2 demo_project_id demo_nodes demo_edges demo_db2 = inr db'
    /\ map e_id (edges_of demo_project_id db') = [e_id demo_e1]
    /\ map e_updated_at (edges_of demo_project_id db') = [2].
Proof.
  assert (exists db', save_flow 2 demo_project_id demo_nodes demo_edges demo_db2
                      = inr db') as [db' Hsave]
    by (eexists; vm_compute; reflexivity).
  destruct (save_flow_replaces_the_edges _ _ _ _ _ _ Hsave) as (rows & Hf & _ & H).
  exists db'. split; [exact Hsave|].
  rewrite H by (intros v [<-|[]]; reflexivity).
  inversion Hf as [|v r es rows' Hv Hf' E1 E2]. subst.
  inversion Hf'. subst. vm_compute in Hv. inversion Hv. split; reflexivity.
Defined.

(** X11. save_flow and the nodes of the other projects. The procedure keys
    its upsert on the node id alone: a node of another project whose id is
    not among the supplied ids is left as it is, and a node of another
    project whose id is supplied is overwritten in place with the supplied
    columns while it stays in its own project. *)
Theorem save_flow_and_the_other_projects :
  forall (now : nat) (pid : string) (ns : list json_node) (es : list json_edge)
         (db db' : database) (r : node_row),
    save_flow now pid ns es db = inr db' ->
    In r (nodes db) ->
    n_project_id r <> pid ->
    ((forall v, In v ns -> jn_id v <> Some (n_id r)) -> In r (nodes db'))
    /\ (forall v ex, In v ns -> node_values now v = inr ex -> n_id ex = n_id r ->
          In (excluded_update now ex r) (nodes db')
          /\ n_project_id (excluded_update now ex r) = n_project_id r
          /\ n_title (excluded_update now ex r) = n_title ex
          /\ n_node_type (excluded_update now ex r) = n_node_type ex).
Proof.
  intros now pid ns es db db' r Hsave Hr Hpid.
  apply save_flow_nodes in Hsave.
  destruct Hsave as (_ & proposed & Hf & Hnd & Hnodes).
  assert (In r (filter (fun x => negb ((n_project_id x =? pid)
                                       && negb (n_node_type x =? "start")))
                       (nodes db))) as Hkept.
  { apply filter_In. split; [assumption|].
    replace (n_project_id r =? pid) with false; [reflexivity|].
    symmetry. now apply String.eqb_neq. }
  rewrite Hnodes. split.
  - intros Hno. unfold written_over. apply in_or_app. left.
    apply in_map_iff. exists r. split; [|assumption].
    rewrite find_absent; [reflexivity|].
    intros ex Hex. apply String.eqb_neq. intros Hid.
    destruct (proposed_from _ _ _ Hf ex Hex) as [v [Hv Hval]].
    apply node_values_inv in Hval. destruct Hval as [Hvid _].
    apply (Hno v Hv). now rewrite Hvid, Hid.
  - intros v ex Hv Hval Hid. split; [|auto].
    apply written_over_overwrites; auto.
    now apply (proposed_contains _ _ _ Hf v).
Qed.

Lemma save_flow_and_the_other_projects_witness :
  exists db',
    save_flow 2 demo_project_id demo_nodes_colliding [] demo_db4 = inr db'
    /\ In demo_q1 (nodes db')
    /\ In (excluded_update 2 demo_colliding demo_q2) (nodes db')
    /\ n_project_id (excluded_update 2 demo_colliding demo_q2)
       = p_id demo_other_project.
Proof.
  assert (exists db', save_flow 2 demo_project_id demo_nodes_colliding []
                        demo_db4 = inr db') as [db' Hsave]
    by (eexists; vm_compute; reflexivity).
  exists db'. split; [exact Hsave|].
  destruct (save_flow_and_the_other_projects 2 demo_project_id
              demo_nodes_colliding [] demo_db4 db' demo_q1 Hsave) as [H1 _].
  { simpl. auto. }
  { discriminate. }
  destruct (save_flow_and_the_other_projects 2 demo_project_id
              demo_nodes_colliding [] demo_db4 db' demo_q2 Hsave) as [_ H2].
  { simpl. auto. }
  { discriminate. }
  split.
  - apply H1. intros v [<-|[<-|[]]]; discriminate.
  - destruct (H2 (json_of_row demo_colliding "default") demo_colliding)
      as (Hin & Hp & _).
    + right. left. reflexivity.
    + reflexivity.
    + reflexivity.
    + split; [exact Hin|exact Hp].
Defined.

Lemma insert_nodes_on_conflict_projects (now : nat) (ns : list json_node)
    (touched : list string) (db db' : database) :
  insert_nodes_on_conflict now touched ns db = inr db' ->
  projects db' = projects db.
Proof.
  intros H. apply insert_nodes_on_conflict_result in H.
  destruct H as (proposed & _ & _ & _ & ->). reflexivity.
Qed.

(** X12. A successful save_flow stamps the saved project and no other: the
    projects table keeps its rows and their order, the row of the saved
    project has the time of the save as its modification time and its other
    columns as before, and every other row is unchanged. *)
Theorem save_flow_stamps_the_project :
  forall (now : nat) (pid : string) (ns : list json_node) (es : list json_edge)
         (db db' : database),
    save_flow now pid ns es db = inr db' ->
    Forall2 (fun old new_ =>
               p_id new_ = p_id old
               /\ p_name new_ = p_name old
               /\ p_description new_ = p_description old
               /\ p_created_at new_ = p_created_at old
               /\ (p_id old = pid -> p_updated_at new_ = now)
               /\ (p_id old <> pid -> new_ = old))
            (projects db) (projects db').
Proof.
  intros now pid ns es db db'. unfold save_flow.
  destruct (has_start_node ns); simpl; [|discriminate].
  rewrite delete_phase_result. simpl. unfold write_phase. intros H.
  destruct (insert_nodes_on_conflict now [] ns _) as [e|db1] eqn:Hn; simpl in H;
    [discriminate|].
  destruct (insert_edges now es db1) as [e|db2] eqn:He; simpl in H; [discriminate|].
  inversion H. subst db'. clear H. simpl.
  apply insert_nodes_on_conflict_projects in Hn. simpl in Hn.
  apply insert_edges_projects in He. rewrite He, Hn. clear He Hn.
  induction (projects db) as [|p l IH]; simpl; [constructor|].
  constructor; [|exact IH].
  destruct (p_id p =? pid) eqn:E; simpl.
  - apply String.eqb_eq in E. repeat split; auto. intros C. contradiction.
  - apply String.eqb_neq in E. repeat split; auto. intros C. contradiction.
Qed.

Lemma save_flow_stamps_the_project_witness :
  exists db',
    save_flow 2 demo_project_id demo_nodes_colliding [] demo_db4 = inr db'
    /\ exists p q, projects db' = [p; q]
                   /\ p_updated_at p = 2 /\ q = demo_other_project.
Proof.
  assert (exists db', save_flow 2 demo_project_id demo_nodes_colliding []
                        demo_db4 = inr db') as [db' Hsave]
    by (eexists; vm_compute; reflexivity).
  exists db'. split; [exact Hsave|].
  pose proof (save_flow_stamps_the_project _ _ _ _ _ _ Hsave) as H.
  simpl in H. inversion H as [|p0 p l l' Hp Hl E1 E2]. subst.
  inversion Hl as [|q0 q l0 l0' Hq Hl0 E3 E4]. subst.
  inversion Hl0. subst. exists p, q. split; [reflexivity|].
  destruct Hp as (_ & _ & _ & _ & Hp & _).
  destruct Hq as (_ & _ & _ & _ & _ & Hq).
  split; [now apply Hp|]. apply Hq. discriminate.
Defined.

(** X13. A successful save_flow leaves the primary key of nodes and the
    reference of nodes to projects in force, and so does the creation of a
    project with its start node. *)
Theorem writes_keep_the_keys :
  forall (now : nat) (db db' : database),
    keys_hold db ->
    (forall pid ns es, save_flow now pid ns es db = inr db' -> keys_hold db')
    /\ (forall new, insert_project now new db = inr db' -> keys_hold db').
Proof.
  intros now db db' Hk. split.
  - intros pid ns es H. exact (save_flow_keeps_keys _ _ _ _ _ _ Hk H).
  - intros new H. exact (insert_project_keeps_keys _ _ _ _ Hk H).
Qed.

Lemma writes_keep_the_keys_witness :
  keys_hold demo_db.
Proof.
  destruct (writes_keep_the_keys 0 empty_db demo_db) as [_ H].
  - split; [constructor|intros r []].
  - apply (H demo_project). reflexivity.
Defined.

(** ** Saving and loading on the canvas page *)

Lemma saveFlow_success (projectId : string) (ns : list json_node)
    (es : list json_edge) (w : world) :
  fst (saveFlow projectId ns es w) = Success ->
  w_requests (snd (saveFlow projectId ns es w))
  = w_requests w ++ [rpc_save_flow projectId ns es]
  /\ w_console (snd (saveFlow projectId ns es w)) = w_console w.
Proof.
  unfold saveFlow. destruct (negb (existsb json_is_start ns)); simpl;
    [discriminate|].
  run_client. destruct (hd None (w_net w)); simpl; [discriminate|].
  destruct (call_save_flow _ _ _ _ _) as [e|[db' []]]; simpl;
    [discriminate|auto].
Qed.

Lemma updateProject_trace (projectId : string) (w : world) :
  w_requests (snd (updateProject projectId w))
  = w_requests w ++ [update_projects projectId]
  /\ w_console (snd (updateProject projectId w)) = w_console w.
Proof.
  unfold updateProject. run_client.
  destruct (hd None (w_net w)); simpl; [auto|].
  destruct (update_project_by_id _ _ _) as [e|[db' r]]; simpl; auto.
Qed.

(** X14. When saveFlow succeeds, handleSave clears the dirty flag and leaves
    the rest of the page state as it is; it has sent the save and then one
    update of the project row, in that order, and it clears the flag whatever
    becomes of that second request. Nothing is written to the console. *)
Theorem successful_save_clears_the_dirty_flag :
  forall (projectId : string) (st : flow_state) (w : world),
    truthy projectId = true ->
    fst (saveFlow projectId (map (formattedNode projectId) (st_nodes st))
           (map (formattedEdge projectId) (st_edges st)) w) = Success ->
    fst (handleSave projectId st w) = setHasUnsavedChanges false st
    /\ w_requests (snd (handleSave projectId st w))
       = w_requests w
         ++ [rpc_save_flow projectId
               (map (formattedNode projectId) (st_nodes st))
               (map (formattedEdge projectId) (st_edges st));
             update_projects projectId]
    /\ w_console (snd (handleSave projectId st w)) = w_console w.
Proof.
  intros projectId st w Hp Hok.
  destruct (saveFlow_success _ _ _ _ Hok) as [Hr Hc].
  assert (handleSave projectId st w
          = (setHasUnsavedChanges false st,
             snd (updateProject projectId
                    (snd (saveFlow projectId
                            (map (formattedNode projectId) (st_nodes st))
                            (map (formattedEdge projectId) (st_edges st)) w)))))
    as Hrun.
  { unfold handleSave. rewrite Hp. simpl. unfold bind.
    destruct (saveFlow projectId _ _ w) as [r w1]. simpl in Hok. subst r. simpl.
    now destruct (updateProject projectId w1). }
  rewrite Hrun. simpl.
  destruct (updateProject_trace projectId
              (snd (saveFlow projectId
                      (map (formattedNode projectId) (st_nodes st))
                      (map (formattedEdge projectId) (st_edges st)) w)))
    as [Hr2 Hc2].
  rewrite Hr2, Hr, Hc2, Hc, <- app_assoc. auto.
Qed.

Lemma successful_save_clears_the_dirty_flag_witness :
  st_hasUnsavedChanges
    (fst (handleSave demo_project_id (demo_state true)
            (demo_world demo_db2 [None; Some "TypeError: Failed to fetch"])))
  = false.
Proof.
  destruct (successful_save_clears_the_dirty_flag demo_project_id
              (demo_state true)
              (demo_world demo_db2 [None; Some "TypeError: Failed to fetch"]))
    as [H _].
  - reflexivity.
  - reflexivity.
  - rewrite H. reflexivity.
Defined.

Lemma js_or_empty (v : option string) :
  js_or v "" = match v with Some s => s | None => "" end.
Proof.
  destruct v as [s|]; [|reflexivity]. unfold js_or, truthy.
  destruct (s =? "") eqn:E; simpl; [|reflexivity].
  apply String.eqb_eq in E. now subst.
Qed.

Lemma or_null_same (v : option string) : v <> Some "" -> or_null v = v.
Proof.
  intros H. destruct v as [s|]; [|reflexivity]. unfold or_null, truthy.
  destruct (s =? "") eqn:E; simpl; [|reflexivity].
  apply String.eqb_eq in E. subst. contradiction.
Qed.

Lemma js_or_truthy (s d : string) : truthy s = true -> js_or (Some s) d = s.
Proof. intros H. unfold js_or. now rewrite H. Qed.

(** X15. What the page loads it saves back unchanged. A stored node of the
    open project whose kind is a non-empty string and whose tool reference
    is not the empty string is sent by handleSave with exactly its stored
    id, title, prompt, kind, tool reference and position. A stored edge is
    sent with its stored id, source and target, and with its label and
    prompt, except that a NULL label or prompt is sent as the empty
    string. *)
Theorem load_then_save_sends_the_stored_columns :
  forall (projectId : string) (n : node_with_tool) (e : edge_row),
    (n_project_id (row n) = projectId ->
     truthy (n_node_type (row n)) = true ->
     n_tool_id (row n) <> Some "" ->
     formattedNode projectId (formattedNodeOfRow n)
     = {| jn_id := Some (n_id (row n));
          jn_project_id := Some (n_project_id (row n));
          jn_title := Some (n_title (row n));
          jn_prompt := n_prompt (row n);
          jn_node_type := Some (n_node_type (row n));
          jn_tool_id := n_tool_id (row n);
          jn_position_x := Some (n_position_x (row n));
          jn_position_y := Some (n_position_y (row n)) |})
    /\ formattedEdge projectId (updatedEdge e)
       = {| je_id := Some (e_id e);
            je_project_id := Some projectId;
            je_source_id := Some (e_source_id e);
            je_target_id := Some (e_target_id e);
            je_label := Some (match e_label e with Some l => l | None => "" end);
            je_prompt := Some (match e_prompt e with Some l => l | None => "" end) |}.
Proof.
  intros projectId n e. split.
  - intros Hp Hk Ht. unfold formattedNode, formattedNodeOfRow.
    cbn [fn_id fn_position fn_data d_title d_prompt d_node_type d_tool_id
         fst snd].
    rewrite (js_or_truthy _ _ Hk). rewrite (js_or_truthy _ _ Hk).
    rewrite (or_null_same _ Ht). rewrite (or_null_same _ Ht). now rewrite Hp.
  - unfold formattedEdge, updatedEdge.
    cbn [fe_id fe_source fe_target fe_data d_label d_edge_prompt].
    now rewrite !js_or_empty.
Qed.

Lemma load_then_save_sends_the_stored_columns_witness :
  formattedNode demo_project_id (formattedNodeOfRow (join_tool demo_db3 demo_tool_node))
  = json_of_row demo_tool_node "tool".
Proof.
  destruct (load_then_save_sends_the_stored_columns demo_project_id
              (join_tool demo_db3 demo_tool_node) demo_e1) as [H _].
  rewrite H; try reflexivity. discriminate.
Defined.

Lemma find_joined (db : database) (l : list node_row) (r : node_row) :
  NoDup (map n_id l) -> In r l ->
  find (fun n => n_id (row n) =? n_id r) (map (join_tool db) l)
  = Some (join_tool db r).
Proof.
  induction l as [|a l IH]; intros Hnd Hin; [destruct Hin|].
  simpl in Hnd. apply NoDup_cons_iff in Hnd. destruct Hnd as [Ha Hnd].
  simpl. destruct Hin as [->|Hin].
  - now rewrite String.eqb_refl.
  - replace (n_id a =? n_id r) with false; [now apply IH|].
    symmetry. apply String.eqb_neq. intros E. apply Ha. rewrite E.
    now apply in_map.
Qed.

(** X16. The two ways a node gets onto the canvas agree. When a pushed
    INSERT or UPDATE carries a row that is the stored row of the open
    project and the supplemental fetch reaches the store, the node the
    subscription merges is the very node loadProjectData would build for
    that row, inlined tool included. *)
Theorem pushed_node_is_the_loaded_node :
  forall (projectId : string) (p : payload node_row) (st : flow_state) (w : world),
    eventType p = "INSERT" \/ eventType p = "UPDATE" ->
    nodes_pkey (w_db w) ->
    In (new p) (nodes (w_db w)) ->
    n_project_id (new p) = projectId ->
    reaches_store 0 w ->
    st_nodes (fst (onNodeEvent projectId p st w))
    = mergeNode (formattedNodeOfRow (join_tool (w_db w) (new p))) (st_nodes st).
Proof.
  intros projectId p st w Hev Hpk Hin Hp Hnet.
  apply first_request_reaches in Hnet.
  rewrite (onNodeEvent_upsert _ _ _ _ Hev). simpl.
  assert (fst (fetchNodesByProject projectId w)
          = Data (select_nodes_by_project (w_db w) projectId)) as Hf.
  { unfold fetchNodesByProject. run_client. now rewrite Hnet. }
  rewrite Hf. simpl. unfold select_nodes_by_project.
  rewrite find_joined.
  - reflexivity.
  - now apply pkey_after_filter.
  - apply filter_In. split; [assumption|]. now apply String.eqb_eq.
Qed.

Lemma pushed_node_is_the_loaded_node_witness :
  st_nodes (fst (onNodeEvent demo_project_id
                   {| eventType := "INSERT"; new := demo_tool_node; old_id := "" |}
                   (demo_state false) (demo_world demo_db3 [])))
  = st_nodes (demo_state false)
    ++ [formattedNodeOfRow {| row := demo_tool_node; tool := Some demo_tool |}].
Proof.
  rewrite (pushed_node_is_the_loaded_node demo_project_id
             {| eventType := "INSERT"; new := demo_tool_node; old_id := "" |}
             (demo_state false) (demo_world demo_db3 [])).
  - reflexivity.
  - left. reflexivity.
  - unfold nodes_pkey. simpl.
    repeat (constructor; [simpl; intuition discriminate|]). constructor.
  - simpl. auto.
  - reflexivity.
  - reflexivity.
Defined.

Lemma third_request_reaches (w : world) :
  reaches_store 2 w -> hd None (tl (tl (w_net w))) = None.
Proof.
  unfold reaches_store. destruct (w_net w) as [|a [|b [|c l]]]; simpl; auto.
Qed.

Lemma loadProjectData_run (projectId : string) (pg : page) (w : world)
    (p : project_row) :
  filter (fun x => p_id x =? projectId) (projects (w_db w)) = [p] ->
  hd None (w_net w) = None ->
  hd None (tl (w_net w)) = None ->
  hd None (tl (tl (w_net w))) = None ->
  loadProjectData projectId pg w
  = ({| flow :=
          {| st_nodes := map formattedNodeOfRow
                           (select_nodes_by_project (w_db w) projectId);
             st_edges := map updatedEdge
                           (select_edges_by_project (w_db w) projectId);
             st_hasUnsavedChanges := false;
             st_error := None |};
        project := Some p;
        isLoading := false |},
     {| w_db := w_db w; w_clock := S (S (S (w_clock w)));
        w_net := tl (tl (tl (w_net w)));
        w_requests := (w_requests w ++ [select_nodes projectId])
                      ++ [select_edges projectId];
        w_console := w_console w |}).
Proof.
  intros Hp H0 H1 H2.
  unfold loadProjectData, fetchProjectById, fetchNodesByProject,
    fetchEdgesByProject, select_project_by_id, supabase_table.
  run_client. rewrite H0. rewrite Hp. simpl. rewrite H1. simpl. rewrite H2.
  reflexivity.
Qed.

(** X17. A load in which the three fetches reach the store, for a project
    the store has, replaces the page graph by the stored one: one canvas
    node for each stored node of the project and one canvas edge for each
    stored edge, in table order; the dirty flag and the error are cleared,
    the project row is set and the loading flag is off. Local nodes and
    edges that were on the page are gone, and the store is only read. *)
Theorem load_replaces_the_page_graph :
  forall (projectId : string) (pg : page) (w : world) (p : project_row),
    filter (fun x => p_id x =? projectId) (projects (w_db w)) = [p] ->
    reaches_store 0 w /\ reaches_store 1 w /\ reaches_store 2 w ->
    let pg' := fst (loadProjectData projectId pg w) in
    st_nodes (flow pg')
    = map formattedNodeOfRow (select_nodes_by_project (w_db w) projectId)
    /\ st_edges (flow pg')
       = map updatedEdge (select_edges_by_project (w_db w) projectId)
    /\ st_hasUnsavedChanges (flow pg') = false
    /\ st_error (flow pg') = None
    /\ project pg' = Some p
    /\ isLoading pg' = false
    /\ w_db (snd (loadProjectData projectId pg w)) = w_db w.
Proof.
  intros projectId pg w p Hp (H0 & H1 & H2) pg'. subst pg'.
  apply first_request_reaches in H0. apply second_request_reaches in H1.
  apply third_request_reaches in H2.
  rewrite (loadProjectData_run _ pg _ _ Hp H0 H1 H2). simpl. repeat split.
Qed.

Lemma load_replaces_the_page_graph_witness :
  st_nodes (flow (fst (loadProjectData demo_project_id demo_dirty_page
                         (demo_world demo_db []))))
  = [demo_start_node]
  /\ st_hasUnsavedChanges
       (flow (fst (loadProjectData demo_project_id demo_dirty_page
                     (demo_world demo_db [])))) = false.
Proof.
  destruct (load_replaces_the_page_graph demo_project_id demo_dirty_page
              (demo_world demo_db []) demo_project) as (Hn & _ & Hd & _).
  - reflexivity.
  - repeat split.
  - split; [rewrite Hn; reflexivity|exact Hd].
Defined.

(** X18. A load that fails part-way. If the project cannot be fetched, the
    graph on the page and its dirty flag stay as they were and the error is
    set. If the project and the nodes are fetched and the edges are not, the
    page is left with the stored nodes next to the edges it had before, the
    dirty flag is not reset, and the error is set. In both cases the loading
    flag is off and the message goes to the console. *)
Theorem load_that_fails_part_way :
  forall (projectId : string) (pg : page) (w : world) (err : string),
    truthy err = true ->
    (fst (fetchProjectById projectId w) = Error err ->
     fst (loadProjectData projectId pg w)
     = {| flow := setError (Some err) (flow pg);
          project := project pg; isLoading := false |})
    /\ (forall p,
           filter (fun x => p_id x =? projectId) (projects (w_db w)) = [p] ->
           reaches_store 0 w /\ reaches_store 1 w ->
           nth 2 (w_net w) None = Some err ->
           fst (loadProjectData projectId pg w)
           = {| flow :=
                  {| st_nodes := map formattedNodeOfRow
                                   (select_nodes_by_project (w_db w) projectId);
                     st_edges := st_edges (flow pg);
                     st_hasUnsavedChanges := st_hasUnsavedChanges (flow pg);
                     st_error := Some err |};
                project := Some p; isLoading := false |}).
Proof.
  intros projectId pg w err Ht. split.
  - intros Hfail. unfold loadProjectData. unfold bind at 1.
    destruct (fetchProjectById projectId w) as [r w1]. simpl in Hfail. subst r.
    unfold thrown. simpl. rewrite Ht. reflexivity.
  - intros p Hp [H0 H1] H2.
    apply first_request_reaches in H0. apply second_request_reaches in H1.
    assert (hd None (tl (tl (w_net w))) = Some err) as H2'.
    { revert H2. destruct (w_net w) as [|a [|b [|c l]]]; simpl; auto;
        discriminate. }
    unfold loadProjectData, fetchProjectById, fetchNodesByProject,
      fetchEdgesByProject, select_project_by_id, supabase_table.
    run_client. rewrite H0. rewrite Hp. simpl. rewrite H1. simpl. rewrite H2'.
    unfold thrown. simpl. rewrite Ht. reflexivity.
Qed.

Lemma load_that_fails_part_way_witness :
  let pg' := fst (loadProjectData demo_project_id demo_dirty_page
                    (demo_world demo_db [None; None; Some "TypeError: Failed to fetch"])) in
  st_nodes (flow pg') = [demo_start_node]
  /\ st_edges (flow pg') = [updatedEdge demo_e1]
  /\ st_hasUnsavedChanges (flow pg') = true.
Proof.
  cbv zeta.
  destruct (load_that_fails_part_way demo_project_id demo_dirty_page
              (demo_world demo_db [None; None; Some "TypeError: Failed to fetch"])
              "TypeError: Failed to fetch" eq_refl) as [_ H].
  rewrite (H demo_project); try reflexivity.
  - repeat split.
  - split; reflexivity.
Defined.

Lemma createProject_run (id name : string) (description : option string)
    (w : world) (p : project_row) :
  fst (createProject id name description w) = Data p ->
  let new := {| p_id := id; p_name := name; p_description := description;
                p_created_at := w_clock w; p_updated_at := w_clock w |} in
  p = new
  /\ project_exists (w_db w) id = false
  /\ snd (createProject id name description w)
     = {| w_db := {| projects := projects (w_db w) ++ [new];
                     tools := tools (w_db w);
                     nodes := nodes (w_db w) ++ [start_node_row (w_clock w) id];
                     edges := edges (w_db w) |};
          w_clock := S (w_clock w);
          w_net := tl (w_net w);
          w_requests := w_requests w;
          w_console := w_console w |}.
Proof.
  unfold createProject, insert_project_row, insert_project,
    create_start_node_for_project, supabase_table.
  run_client.
  destruct (hd None (w_net w)); simpl; [discriminate|].
  destruct (project_exists (w_db w) id); simpl; [discriminate|].
  destruct (node_id_exists _ _); simpl; [discriminate|].
  intros H. inversion H. auto.
Qed.

(** X19. Creating a project and opening it. After createProject has
    succeeded on a store whose nodes and edges all belong to stored
    projects, a load of the new project that reaches the store puts exactly
    one node on the canvas: the start node, with id start_<project id>, at
    (50, 50), not deletable and without a tool; there are no edges, the
    page is clean, and the project row is the one createProject returned. *)
Theorem creating_then_loading_shows_the_start_node :
  forall (id name : string) (description : option string) (w : world)
         (pg : page) (p : project_row),
    nodes_project_fkey (w_db w) ->
    edges_project_fkey (w_db w) ->
    fst (createProject id name description w) = Data p ->
    reaches_store 1 w /\ reaches_store 2 w /\ reaches_store 3 w ->
    let pg' := fst (loadProjectData id pg
                      (snd (createProject id name description w))) in
    st_nodes (flow pg')
    = [formattedNodeOfRow {| row := start_node_row (w_clock w) id; tool := None |}]
    /\ map fn_id (st_nodes (flow pg')) = [start_node_id id]
    /\ map fn_position (st_nodes (flow pg')) = [(50%Z, 50%Z)]
    /\ map fn_deletable (st_nodes (flow pg')) = [false]
    /\ st_edges (flow pg') = []
    /\ st_hasUnsavedChanges (flow pg') = false
    /\ project pg' = Some p.
Proof.
  intros id name description w pg p Hnfk Hefk Hcreated (H1 & H2 & H3) pg'.
  destruct (createProject_run _ _ _ _ _ Hcreated) as (Hp & Hfresh & Hw).
  assert (filter (fun x => p_id x =? id) (projects (w_db w)) = []) as Hnoproj.
  { apply filter_drops_all. intros x Hx.
    exact (existsb_false_inv _ _ Hfresh x Hx). }
  assert (filter (fun r => n_project_id r =? id) (nodes (w_db w)) = []) as Hnonode.
  { apply filter_drops_all. intros r Hr. apply String.eqb_neq. intros E.
    pose proof (Hnfk r Hr) as C. rewrite E in C. congruence. }
  assert (filter (fun r => e_project_id r =? id) (edges (w_db w)) = []) as Hnoedge.
  { apply filter_drops_all. intros r Hr. apply String.eqb_neq. intros E.
    pose proof (Hefk r Hr) as C. rewrite E in C. congruence. }
  assert (hd None (tl (w_net w)) = None
          /\ hd None (tl (tl (w_net w))) = None
          /\ hd None (tl (tl (tl (w_net w)))) = None) as (N1 & N2 & N3).
  { revert H1 H2 H3. unfold reaches_store.
    destruct (w_net w) as [|a [|b [|c [|d l]]]]; simpl; auto. }
  subst pg'. rewrite Hw.
  rewrite (loadProjectData_run id pg _ p).
  - simpl. unfold select_nodes_by_project, select_edges_by_project. simpl.
    rewrite !filter_app, Hnonode, Hnoedge. simpl. rewrite String.eqb_refl.
    simpl. repeat split.
  - simpl. rewrite filter_app, Hnoproj. simpl. rewrite String.eqb_refl.
    now rewrite Hp.
  - exact N1.
  - exact N2.
  - exact N3.
Qed.

Lemma creating_then_loading_shows_the_start_node_witness :
  map fn_id
      (st_nodes
         (flow (fst (loadProjectData demo_project_id demo_page
                       (snd (createProject demo_project_id "P" None
                               (demo_world empty_db [])))))))
  = [start_node_id demo_project_id].
Proof.
  eapply (creating_then_loading_shows_the_start_node demo_project_id "P" None
            (demo_world empty_db []) demo_page).
  - intros r [].
  - intros r [].
  - reflexivity.
  - repeat split.
Defined.

(** ** The projects page *)

(** X20. The projects subscription is not the canvas merge. An INSERT is
    prepended whether or not the list already has a project with that id,
    so an INSERT delivered twice leaves two entries. An UPDATE never adds:
    for an id the list does not have it changes nothing, it keeps the length
    of the list, and applying it twice is applying it once. After a DELETE
    no project with the id is left. *)
Theorem project_events_on_the_home_page :
  forall (p : payload project_row) (prev : list project_row),
    (eventType p = "INSERT" ->
     onProjectEvent p prev = new p :: prev
     /\ onProjectEvent p (onProjectEvent p prev) = new p :: new p :: prev)
    /\ (eventType p = "UPDATE" ->
        List.length (onProjectEvent p prev) = List.length prev
        /\ ((forall x, In x prev -> p_id x <> p_id (new p)) ->
            onProjectEvent p prev = prev)
        /\ onProjectEvent p (onProjectEvent p prev) = onProjectEvent p prev)
    /\ (eventType p = "DELETE" ->
        (forall x, In x (onProjectEvent p prev) -> p_id x <> old_id p)
        /\ (forall x, In x prev -> p_id x <> old_id p ->
                      In x (onProjectEvent p prev))).
Proof.
  intros p prev. unfold onProjectEvent. split; [|split].
  - intros ->. simpl. auto.
  - intros ->. simpl. split; [apply length_map|]. split.
    + intros Hno. rewrite <- (map_id prev) at 2. apply map_ext_in.
      intros x Hx. replace (p_id x =? p_id (new p)) with false; [reflexivity|].
      symmetry. apply String.eqb_neq. now apply Hno.
    + rewrite map_map. apply map_ext. intros x.
      destruct (p_id x =? p_id (new p)) eqn:E.
      * now rewrite String.eqb_refl.
      * now rewrite E.
  - intros ->. simpl. split.
    + intros x Hx. apply filter_In in Hx. destruct Hx as [_ Hx].
      now apply negb_true_iff, String.eqb_neq in Hx.
    + intros x Hx Hne. apply filter_In. split; [assumption|].
      now apply negb_true_iff, String.eqb_neq.
Qed.

Lemma project_events_on_the_home_page_witness :
  onProjectEvent {| eventType := "INSERT"; new := demo_project; old_id := "" |}
    (onProjectEvent {| eventType := "INSERT"; new := demo_project; old_id := "" |} [])
  = [demo_project; demo_project]
  /\ onProjectEvent
       {| eventType := "UPDATE"; new := demo_project_renamed; old_id := "" |}
       [demo_other_project]
     = [demo_other_project].
Proof.
  split.
  - destruct (project_events_on_the_home_page
                {| eventType := "INSERT"; new := demo_project; old_id := "" |} [])
      as [H _].
    destruct (H eq_refl) as [_ H2]. exact H2.
  - destruct (project_events_on_the_home_page
                {| eventType := "UPDATE"; new := demo_project_renamed; old_id := "" |}
                [demo_other_project]) as (_ & H & _).
    destruct (H eq_refl) as (_ & H2 & _). apply H2.
    intros x [<-|[]]. discriminate.
Defined.

(** X21. handleCreateProject hands the outcome to its caller. When
    createProject answers with a (non-empty) error, the handler returns that
    error as it is, logs it, and leaves the page as it was, the modal still
    open. When createProject answers with the new row, the handler returns
    success and closes the modal. In neither case does it touch the list of
    projects, which only the subscription feeds. *)
Theorem handleCreateProject_reports_the_outcome :
  forall (id name : string) (description : option string) (hs : home_state)
         (w : world),
    let out := fst (handleCreateProject id name description hs w) in
    hs_projects (snd out) = hs_projects hs
    /\ (forall err,
           fst (createProject id name description w) = Error err ->
           truthy err = true ->
           out = (Error err, hs)
           /\ w_console (snd (handleCreateProject id name description hs w))
              = w_console w ++ [("Error creating project: Error: " ++ err)%string])
    /\ (forall p,
           fst (createProject id name description w) = Data p ->
           fst out = Success /\ hs_isCreateModalOpen (snd out) = false).
Proof.
  intros id name description hs w out. subst out.
  assert (w_console (snd (createProject id name description w)) = w_console w)
    as Hc.
  { unfold createProject, supabase_table. run_client.
    destruct (hd None (w_net w)); simpl; [reflexivity|].
    now destruct (insert_project_row _ _ _ _ _) as [e|[db' r]]. }
  unfold handleCreateProject, bind.
  destruct (createProject id name description w) as [r w1]. simpl in Hc.
  split; [|split].
  - destruct r as [d| |e]; simpl; try reflexivity.
    unfold thrown. simpl. now destruct (truthy e).
  - intros err Hr Ht. simpl in Hr. subst r. unfold thrown. simpl. rewrite Ht.
    simpl. rewrite Hc. auto.
  - intros p Hr. simpl in Hr. subst r. simpl. auto.
Qed.

Lemma handleCreateProject_reports_the_outcome_witness :
  fst (handleCreateProject demo_project_id "P again" None
         {| hs_projects := [demo_project]; hs_isCreateModalOpen := true |}
         (demo_world demo_db []))
  = (Error "duplicate key value violates unique constraint projects_pkey",
     {| hs_projects := [demo_project]; hs_isCreateModalOpen := true |}).
Proof.
  destruct (handleCreateProject_reports_the_outcome demo_project_id "P again" None
              {| hs_projects := [demo_project]; hs_isCreateModalOpen := true |}
              (demo_world demo_db [])) as (_ & H & _).
  destruct (H "duplicate key value violates unique constraint projects_pkey"
              eq_refl eq_refl) as [H1 _].
  exact H1.
Defined.

(** ** Local edits on the canvas page *)

(** X22. handleNodeSave edits node data and nothing else. Every node keeps
    its id, type, position and deletable flag and its place in the list; a
    node with another id is untouched; a node with the id gets the supplied
    keys spread over its data. The edges are untouched and the page is
    marked dirty, also when no node has the id and nothing has changed. *)
Theorem handleNodeSave_edits_only_the_data :
  forall (nodeId : string) (data : node_patch) (st : flow_state),
    let st' := handleNodeSave nodeId data st in
    Forall2 (fun old new_ =>
               fn_id new_ = fn_id old
               /\ fn_type new_ = fn_type old
               /\ fn_position new_ = fn_position old
               /\ fn_deletable new_ = fn_deletable old
               /\ (fn_id old = nodeId ->
                   fn_data new_ = spread_data (fn_data old) data)
               /\ (fn_id old <> nodeId -> new_ = old))
            (st_nodes st) (st_nodes st')
    /\ st_edges st' = st_edges st
    /\ st_hasUnsavedChanges st' = true
    /\ ((forall n, In n (st_nodes st) -> fn_id n <> nodeId) ->
        st_nodes st' = st_nodes st).
Proof.
  intros nodeId data st st'. subst st'. unfold handleNodeSave. simpl.
  split; [|split; [reflexivity|split; [reflexivity|]]].
  - induction (st_nodes st) as [|a l IH]; simpl; constructor; [|exact IH].
    destruct (fn_id a =? nodeId) eqn:E; simpl.
    + apply String.eqb_eq in E. repeat split; auto. intros C. contradiction.
    + apply String.eqb_neq in E. repeat split; auto. intros C. contradiction.
  - intros Hno. rewrite <- (map_id (st_nodes st)) at 2. apply map_ext_in.
    intros n Hn. replace (fn_id n =? nodeId) with false; [reflexivity|].
    symmetry. apply String.eqb_neq. now apply Hno.
Qed.

Lemma handleNodeSave_edits_only_the_data_witness :
  st_nodes (handleNodeSave "node_gone" (patch_of_form (node_form_of demo_start_node))
              (demo_state false))
  = st_nodes (demo_state false).
Proof.
  destruct (handleNodeSave_edits_only_the_data "node_gone"
              (patch_of_form (node_form_of demo_start_node)) (demo_state false))
    as (_ & _ & _ & H).
  apply H. intros n [<-|[<-|[]]]; discriminate.
Defined.

(** X23. NodeEditModal, opened on a node and submitted. With no edit, the
    nodes on the page come back as they were, provided the node has a
    prompt, a non-empty kind and no empty-string tool id (the form turns a
    missing prompt into the empty string); the page is marked dirty all the
    same. Choosing a kind other than "tool" clears the tool id of the form,
    choosing "tool" keeps it; and since the form has no key for it, the
    inlined tool object of the node stays whatever is submitted. *)
Theorem node_form_round_trip :
  forall (node : flow_node) (formData : node_form) (value : string)
         (st : flow_state),
    ((forall n, In n (st_nodes st) -> fn_id n = fn_id node -> n = node) ->
     d_prompt (fn_data node) <> None ->
     truthy (d_node_type (fn_data node)) = true ->
     d_tool_id (fn_data node) <> Some "" ->
     st_nodes (submitNodeForm node (node_form_of node) st) = st_nodes st
     /\ st_hasUnsavedChanges (submitNodeForm node (node_form_of node) st) = true)
    /\ (value <> "tool" -> f_tool_id (changeNodeType value formData) = None)
    /\ f_tool_id (changeNodeType "tool" formData) = f_tool_id formData
    /\ (forall n, In n (st_nodes (submitNodeForm node formData st)) ->
                  fn_id n = fn_id node ->
                  d_tool_id (fn_data n) = f_tool_id formData
                  /\ exists old, In old (st_nodes st) /\ fn_id old = fn_id node
                                 /\ d_tool (fn_data n) = d_tool (fn_data old)).
Proof.
  intros node formData value st. split; [|split; [|split]].
  - intros Hsame Hprompt Hkind Htool. split; [|reflexivity].
    unfold submitNodeForm, handleNodeSave. simpl.
    rewrite <- (map_id (st_nodes st)) at 2. apply map_ext_in. intros n Hn.
    destruct (fn_id n =? fn_id node) eqn:E; [|reflexivity].
    apply String.eqb_eq in E. rewrite (Hsame n Hn E).
    destruct node as [i ty pos del [title prompt kind tid tl]].
    cbn [fn_data d_prompt d_node_type d_tool_id] in Hprompt, Hkind, Htool.
    unfold spread_data, patch_of_form, node_form_of.
    cbn [fn_id fn_type fn_position fn_deletable fn_data d_title d_prompt
         d_node_type d_tool_id d_tool pt_title pt_prompt pt_node_type
         pt_tool_id pt_tool f_title f_prompt f_node_type f_tool_id supplied].
    rewrite (js_or_truthy _ _ Hkind), (or_null_same _ Htool).
    destruct prompt as [s|]; [|contradiction].
    rewrite !js_or_empty. reflexivity.
  - intros Hv. unfold changeNodeType. simpl.
    replace (value =? "tool") with false; [reflexivity|].
    symmetry. now apply String.eqb_neq.
  - reflexivity.
  - intros n Hn Hid. unfold submitNodeForm, handleNodeSave in Hn. simpl in Hn.
    apply in_map_iff in Hn. destruct Hn as [old [Hold Hin]].
    destruct (fn_id old =? fn_id node) eqn:E.
    + apply String.eqb_eq in E. subst n. simpl. split; [reflexivity|].
      exists old. auto.
    + subst n. apply String.eqb_neq in E. contradiction.
Qed.

Lemma node_form_round_trip_witness :
  st_nodes (submitNodeForm (updatedNode demo_n1 tool_null)
              (node_form_of (updatedNode demo_n1 tool_null)) (demo_state false))
  = st_nodes (demo_state false)
  /\ map (fun n => (d_tool_id (fn_data n), d_tool (fn_data n)))
         (st_nodes (submitNodeForm demo_tool_canvas_node
                      (changeNodeType "default" (node_form_of demo_tool_canvas_node))
                      demo_tool_state))
     = [(None, tool_null); (None, tool_object demo_tool)].
Proof.
  split; [|reflexivity].
  destruct (node_form_round_trip (updatedNode demo_n1 tool_null)
              (node_form_of (updatedNode demo_n1 tool_null)) "default"
              (demo_state false)) as [H _].
  destruct H as [H _].
  - intros n [<-|[<-|[]]]; vm_compute; intros C; [discriminate C|reflexivity].
  - discriminate.
  - reflexivity.
  - discriminate.
  - exact H.
Defined.

(** X24. handleEdgeSave edits edge data and nothing else: every edge keeps
    its id, source, target and type and its place in the list, an edge with
    another id is untouched, and an edge with the id gets the label and the
    prompt of the form. The nodes are untouched and the page is marked
    dirty. Submitting the form EdgeEditModal shows for an edge, unedited,
    gives the edges back as they were when the edge has a label and a
    prompt. *)
Theorem handleEdgeSave_edits_only_the_data :
  forall (edgeId : string) (formData : edge_form) (st : flow_state),
    let st' := handleEdgeSave edgeId formData st in
    Forall2 (fun old new_ =>
               fe_id new_ = fe_id old
               /\ fe_source new_ = fe_source old
               /\ fe_target new_ = fe_target old
               /\ fe_type new_ = fe_type old
               /\ (fe_id old = edgeId ->
                   fe_data new_ = Some {| d_label := Some (ef_label formData);
                                          d_edge_prompt := Some (ef_prompt formData) |})
               /\ (fe_id old <> edgeId -> new_ = old))
            (st_edges st) (st_edges st')
    /\ st_nodes st' = st_nodes st
    /\ st_hasUnsavedChanges st' = true
    /\ (forall edge l q,
           (forall e, In e (st_edges st) -> fe_id e = fe_id edge -> e = edge) ->
           fe_data edge = Some {| d_label := Some l; d_edge_prompt := Some q |} ->
           st_edges (handleEdgeSave (fe_id edge) (edge_form_of edge) st)
           = st_edges st).
Proof.
  intros edgeId formData st st'. subst st'. unfold handleEdgeSave. simpl.
  split; [|split; [reflexivity|split; [reflexivity|]]].
  - induction (st_edges st) as [|a l IH]; simpl; constructor; [|exact IH].
    destruct (fe_id a =? edgeId) eqn:E; simpl.
    + apply String.eqb_eq in E. repeat split; auto. intros C. contradiction.
    + apply String.eqb_neq in E. repeat split; auto. intros C. contradiction.
  - intros edge l q Hsame Hdata.
    rewrite <- (map_id (st_edges st)) at 2. apply map_ext_in. intros e He.
    destruct (fe_id e =? fe_id edge) eqn:E; [|reflexivity].
    apply String.eqb_eq in E. rewrite (Hsame e He E).
    unfold edge_form_of. rewrite Hdata.
    cbn [d_label d_edge_prompt ef_label ef_prompt]. rewrite !js_or_empty.
    destruct edge. simpl in *. now rewrite Hdata.
Qed.

Lemma handleEdgeSave_edits_only_the_data_witness :
  st_edges (handleEdgeSave (fe_id (updatedEdge demo_e1))
              (edge_form_of (updatedEdge demo_e1)) (demo_state false))
  = st_edges (demo_state false).
Proof.
  destruct (handleEdgeSave_edits_only_the_data (fe_id (updatedEdge demo_e1))
              (edge_form_of (updatedEdge demo_e1)) (demo_state false))
    as (_ & _ & _ & H).
  apply (H (updatedEdge demo_e1) "Add Condition"
           "Describe the condition for this transition").
  - intros e [<-|[]] _. reflexivity.
  - reflexivity.
Defined.

(** ** Creating single nodes and edges *)

(** X25. createNode stores the node or nothing. When it answers with a row,
    the id was new, the row is the last of the nodes table, its kind is the
    supplied one (without any start-node check) or "default" when none was
    supplied, and a fetch of its project finds it. When the id is already
    taken it answers an error and the store is as it was. *)
Theorem createNode_appends_or_refuses :
  forall (nodeData : json_node) (w : world),
    let w' := snd (createNode nodeData w) in
    (forall r,
        fst (createNode nodeData w) = Data r ->
        jn_id nodeData = Some (n_id r)
        /\ node_id_exists (w_db w) (n_id r) = false
        /\ nodes (w_db w') = nodes (w_db w) ++ [r]
        /\ n_node_type r = match jn_node_type nodeData with
                           | Some t => t
                           | None => "default"
                           end
        /\ In (join_tool (w_db w') r)
              (select_nodes_by_project (w_db w') (n_project_id r)))
    /\ (forall i,
           jn_id nodeData = Some i ->
           node_id_exists (w_db w) i = true ->
           (exists e, fst (createNode nodeData w) = Error e)
           /\ w_db w' = w_db w).
Proof.
  intros nodeData w w'. subst w'.
  unfold createNode, supabase_table, insert_node_row. run_client. split.
  - intros r. destruct (hd None (w_net w)); simpl; [discriminate|].
    destruct (insert_node_values (w_clock w) nodeData) as [e|x] eqn:Hv; simpl;
      [discriminate|].
    destruct (node_id_exists (w_db w) (n_id x)) eqn:Hex; simpl; [discriminate|].
    destruct (negb (project_exists (w_db w) (n_project_id x))); simpl;
      [discriminate|].
    destruct (negb (tool_exists (w_db w) (n_tool_id x))); simpl; [discriminate|].
    intros H. inversion H. subst x. clear H.
    unfold insert_node_values, not_null in Hv.
    destruct (jn_id nodeData), (jn_project_id nodeData), (jn_title nodeData),
      (jn_position_x nodeData), (jn_position_y nodeData); simpl in Hv;
      inversion Hv. subst r. simpl in *.
    repeat split; auto.
    unfold select_nodes_by_project. simpl. apply in_map.
    apply filter_In. split; [|apply String.eqb_refl].
    apply in_or_app. right. now left.
  - intros i Hi Hex. destruct (hd None (w_net w)); simpl; [eauto|].
    destruct (insert_node_values (w_clock w) nodeData) as [e|x] eqn:Hv; simpl;
      [eauto|].
    assert (n_id x = i) as ->.
    { unfold insert_node_values, not_null in Hv. rewrite Hi in Hv.
      destruct (jn_project_id nodeData), (jn_title nodeData),
        (jn_position_x nodeData), (jn_position_y nodeData); simpl in Hv;
        inversion Hv. reflexivity. }
    rewrite Hex. simpl. eauto.
Qed.

Lemma createNode_appends_or_refuses_witness :
  w_db (snd (createNode (json_of_row demo_n1 "start") (demo_world demo_db2 [])))
  = demo_db2
  /\ map n_node_type
         (nodes (w_db (snd (createNode (json_of_row demo_n2 "start")
                              (demo_world demo_db2 [])))))
     = ["start"; "default"; "start"].
Proof.
  destruct (createNode_appends_or_refuses (json_of_row demo_n1 "start")
              (demo_world demo_db2 [])) as [_ H].
  destruct (H (n_id demo_n1) eq_refl eq_refl) as [_ Hdb].
  destruct (createNode_appends_or_refuses (json_of_row demo_n2 "start")
              (demo_world demo_db2 [])) as [H2 _].
  destruct (H2 {| n_id := n_id demo_n2; n_project_id := demo_project_id;
                  n_title := "Goodbye"; n_prompt := None;
                  n_node_type := "start"; n_tool_id := None;
                  n_position_x := 10; n_position_y := 20;
                  n_created_at := 2; n_updated_at := 2 |} eq_refl)
    as (_ & _ & Hn & _).
  split; [exact Hdb|]. rewrite Hn. reflexivity.
Defined.

(** X26. createEdge looks at the edges table and at the project only. With
    a new id, a stored project, a source and a target supplied, and the
    request reaching the store, the edge is stored as the last row and
    returned whether or not any node has the source or the target id; the
    nodes table is not read or changed. *)
Theorem createEdge_does_not_look_at_nodes :
  forall (edgeData : json_edge) (w : world) (i pid s t : string),
    je_id edgeData = Some i ->
    je_project_id edgeData = Some pid ->
    je_source_id edgeData = Some s ->
    je_target_id edgeData = Some t ->
    edge_id_exists (w_db w) i = false ->
    project_exists (w_db w) pid = true ->
    reaches_store 0 w ->
    let r := {| e_id := i; e_project_id := pid; e_source_id := s;
                e_target_id := t; e_label := je_label edgeData;
                e_prompt := je_prompt edgeData;
                e_created_at := w_clock w; e_updated_at := w_clock w |} in
    fst (createEdge edgeData w) = Data r
    /\ edges (w_db (snd (createEdge edgeData w))) = edges (w_db w) ++ [r]
    /\ nodes (w_db (snd (createEdge edgeData w))) = nodes (w_db w).
Proof.
  intros edgeData w i pid s t Hi Hp Hs Ht Hfresh Hproj Hnet r.
  apply first_request_reaches in Hnet.
  unfold createEdge, supabase_table, insert_edge_row, edge_values, insert_edge,
    not_null.
  run_client. rewrite Hnet, Hi, Hp, Hs, Ht. simpl.
  rewrite Hfresh, Hproj. simpl. auto.
Qed.

Lemma createEdge_does_not_look_at_nodes_witness :
  map e_target_id
      (edges (w_db (snd (createEdge demo_dangling_edge (demo_world demo_db2 [])))))
  = ["node_1700000000000"; "phantom"].
Proof.
  destruct (createEdge_does_not_look_at_nodes demo_dangling_edge
              (demo_world demo_db2 []) "xy-edge__ghost-phantom" demo_project_id
              "ghost" "phantom" eq_refl eq_refl eq_refl eq_refl eq_refl eq_refl
              eq_refl) as (_ & H & _).
  rewrite H. reflexivity.
Defined.
